(** * SaleOrderForecast: the forecasting engine

    A shallow embedding of [backend/app/schemas/forecast.py] and
    [backend/app/services/forecast_service.py], and the properties of the
    forecasts they produce.

    - Calendar dates and pandas timestamps are day ordinals in [Z]
      ([date.toordinal()]); the historical rows carry midnight timestamps, so
      [.dt.days] of a difference is the difference of the ordinals. The
      bounds of [datetime.date] are checked where the service subtracts a
      [timedelta] from a date; those of pandas' nanosecond timestamps are not
      modelled.
    - [float] values are IEEE binary64, Rocq's primitive floats: a division
      [0 / 0] gives [nan], as numpy's does (numpy warns, it does not raise),
      and sums overflow to infinity. Sums are added in numpy's order, the
      pairwise summation of a contiguous array.
    - The history is a pandas DataFrame, a mutable object the engine receives
      by reference: the engine is written in a state and error monad whose
      state is that frame.
    - The clock and the uuid generator are an explicit environment. *)

From Stdlib Require Import String ZArith List Bool Lia Floats Uint63.
From Stdlib Require Import DecimalString.
Import ListNotations.

Local Open Scope Z_scope.
Set Warnings "-inexact-float".

(** ** numpy on one-dimensional float64 arrays *)

Module np.

(** [int64 -> float64] conversion of a day count or a length. *)
Definition float_of_Z (z : Z) : float :=
  if z <? 0 then PrimFloat.opp (PrimFloat.of_uint63 (Uint63.of_Z (- z)))
  else PrimFloat.of_uint63 (Uint63.of_Z z).

Definition float_of_nat (n : nat) : float := float_of_Z (Z.of_nat n).

(** [np.zeros(n)] and [np.ones(n)]. *)
Definition zeros (n : nat) : list float := repeat 0%float n.
Definition ones (n : nat) : list float := repeat 1%float n.

(** The eight partial sums of numpy's summation loop: each takes one
    element of every block of eight; when fewer than eight elements are left
    the partial sums are added pairwise,
    [((r0 + r1) + (r2 + r3)) + ((r4 + r5) + (r6 + r7))], and the elements left
    over are added to the result one by one. *)
Fixpoint pairwise_block (r0 r1 r2 r3 r4 r5 r6 r7 : float) (a : list float)
  : float :=
  match a with
  | x0 :: x1 :: x2 :: x3 :: x4 :: x5 :: x6 :: x7 :: a' =>
      pairwise_block (r0 + x0) (r1 + x1) (r2 + x2) (r3 + x3)
                     (r4 + x4) (r5 + x5) (r6 + x6) (r7 + x7) a'
  | _ =>
      fold_left PrimFloat.add a
        (((r0 + r1) + (r2 + r3)) + ((r4 + r5) + (r6 + r7)))%float
  end.

(** An array of at most 128 elements: fewer than eight are added from left
    to right, starting from [-0.0]; from eight on, the partial sums start as
    the first eight elements. *)
Definition pairwise_small (a : list float) : float :=
  match a with
  | x0 :: x1 :: x2 :: x3 :: x4 :: x5 :: x6 :: x7 :: a' =>
      pairwise_block x0 x1 x2 x3 x4 x5 x6 x7 a'
  | _ => fold_left PrimFloat.add a (-0)%float
  end.

(** A longer array is cut in two, the first part of [n / 2] elements rounded
    down to a multiple of eight, and the sums of the parts are added. Each
    part is shorter than the array: [depth] bounds the number of cuts, and
    the length of the array is enough ([pairwise_sum_depth], below). *)
Fixpoint pairwise_sum_rec (depth : nat) (a : list float) : float :=
  match depth with
  | O => pairwise_small a
  | S depth' =>
      if (length a <=? 128)%nat then pairwise_small a
      else
        let n2 := (length a / 2)%nat in
        let n2 := (n2 - n2 mod 8)%nat in
        (pairwise_sum_rec depth' (firstn n2 a)
         + pairwise_sum_rec depth' (skipn n2 a))%float
  end.

Definition pairwise_sum (a : list float) : float :=
  pairwise_sum_rec (length a) a.

(** [np.sum] of a contiguous float64 array: numpy's pairwise summation,
    started from [-0.0], the identity of the addition that keeps the sign of
    a sum of negative zeros; the empty array has sum [0.0]. (An int64 array
    that is added as float64, the column ['days'] in [np.mean(X)], is
    converted and added by buffers of 8192 elements: the model follows numpy
    on the arrays of at most that many elements.) *)
Definition sum (a : list float) : float :=
  match a with
  | [] => 0%float
  | _ :: _ => pairwise_sum a
  end.

(** [np.mean]: [sum / size]; the empty array gives [0 / 0 = nan]. *)
Definition mean (a : list float) : float :=
  (sum a / float_of_nat (length a))%float.

(** [np.std], population standard deviation (ddof = 0):
    [sqrt(mean((a - a.mean()) * (a - a.mean())))]. *)
Definition std (a : list float) : float :=
  let m := mean a in
  PrimFloat.sqrt (mean (map (fun x => ((x - m) * (x - m))%float) a)).

(** Broadcasting of a column vector of shape (n, 1) against a vector of
    shape (n,): the product has shape (n, n), entry [i, j] being
    [col[i] * row[j]]; it is listed here in row-major (memory) order. *)
Definition mul_column_row (col row : list float) : list float :=
  flat_map (fun c => map (fun r => (c * r)%float) row) col.

End np.

(** ** The pandas objects the engine uses *)

Definition date := Z.

Module pd.

(** One row of the sales data: columns [date], [value], [sales_rep_id] and
    [category]. *)
Record Row := mkRow {
  row_date : date;
  row_value : float;
  row_sales_rep_id : option Z;
  row_category : option string
}.

(** A DataFrame of sales data: its rows, and the column ['days'], which the
    data source does not produce and the frame has only once it is set. *)
Record DataFrame := mkDataFrame {
  rows : list Row;
  days : option (list Z)
}.

(** [df.empty] and [len(df)]. *)
Definition empty (df : DataFrame) : bool :=
  match rows df with [] => true | _ :: _ => false end.

Definition len (df : DataFrame) : Z := Z.of_nat (length (rows df)).

(** [df['date']] and [df['value']]. *)
Definition col_date (df : DataFrame) : list date := map row_date (rows df).
Definition col_value (df : DataFrame) : list float := map row_value (rows df).

(** [df['days'] = column]: the assignment sets (or replaces) the column of
    the frame it is applied to. *)
Definition set_days (column : list Z) (df : DataFrame) : DataFrame :=
  {| rows := rows df; days := Some column |}.

(** [Series.min()] of a column of timestamps; the empty column has no
    minimum (pandas answers NaT). *)
Definition Series_min (s : list date) : option date :=
  match s with
  | [] => None
  | d :: s' => Some (fold_left Z.min s' d)
  end.

(** [Series.mean()] of a float64 column, with the default [skipna=True]
    (pandas' [nanmean], without the optional bottleneck): the NaN entries
    count as [0.0] in the sum, which numpy computes, and the sum is divided by
    the number of the other entries; a column without any other entry has
    mean NaN. *)
Definition Series_mean (s : list float) : float :=
  let count := length (filter (fun v => negb (PrimFloat.is_nan v)) s) in
  let the_sum :=
    np.sum (map (fun v => if PrimFloat.is_nan v then 0%float else v) s) in
  if (0 <? count)%nat then (the_sum / np.float_of_nat count)%float
  else PrimFloat.nan.

(** [pd.date_range(start=start, end=end)]: the days from [start] to [end],
    both included, one per day; empty when [end] is before [start]. *)
Definition date_range (start end_ : date) : list date :=
  map (fun i => start + Z.of_nat i) (seq 0 (Z.to_nat (end_ - start + 1))).

End pd.

(** ** app/schemas/forecast.py *)

Module ForecastType.
Definition BASIC : string := "basic".
Definition ADVANCED : string := "advanced".
Definition PREDICTIVE : string := "predictive".
End ForecastType.

Inductive ValidationError : Type :=
| mkValidationError (loc msg : string).

Record ForecastParameters := mkForecastParameters {
  start_date : date;
  end_date : date;
  sales_rep_id : option Z;
  category : option string;
  forecast_type : string;
  include_historical : bool;
  confidence_level : option float
}.

(** [ForecastParameters(...)]: the model declares typed fields with defaults
    and no validator, so every well-typed set of fields is accepted. *)
Definition ForecastParameters_init
    (start_date end_date : date)
    (sales_rep_id : option Z) (category : option string)
    (forecast_type : option string) (include_historical : option bool)
    (confidence_level : option float)
  : ValidationError + ForecastParameters :=
  inr {| start_date := start_date;
         end_date := end_date;
         sales_rep_id := sales_rep_id;
         category := category;
         forecast_type := match forecast_type with
                          | Some t => t
                          | None => "basic"%string
                          end;
         include_historical := match include_historical with
                               | Some b => b
                               | None => false
                               end;
         confidence_level := confidence_level |}.

Record ForecastDataPoint := mkForecastDataPoint {
  point_date : date;
  value : float;
  confidence_lower : option float;
  confidence_upper : option float;
  is_actual : bool
}.

(** A value of the [metadata] dictionary. *)
Inductive Scalar : Type :=
| SStr (s : string)
| SInt (z : Z)
| SFloat (f : float).

Record ForecastResponse := mkForecastResponse {
  id : string;
  created_at : Z;
  parameters : ForecastParameters;
  data_points : list ForecastDataPoint;
  metadata : list (string * Scalar)
}.

(** ** app/schemas/user.py and the sheets service, as the engine sees them *)

Record User := mkUser {
  user_id : Z;
  email : string;
  full_name : option string;
  is_active : bool;
  role : string;
  is_admin : bool
}.

Inductive Exception : Type :=
| IndexError
| NaTError
| OverflowError
| HTTPException (status_code : Z) (detail : string).

(** [d - timedelta(days=k)] on a [datetime.date]: the dates run from
    [date.min], of ordinal 1, to [date.max], of ordinal 3652059, and a
    difference outside of them raises [OverflowError]. *)
Definition date_sub_days (d : date) (k : Z) : Exception + date :=
  if (1 <=? d - k) && (d - k <=? 3652059) then inr (d - k)
  else inl OverflowError.

(** The sheets service a [ForecastService] is built with, by its method
    [get_sales_data(start_date, end_date, sales_rep_id, category)]: the frame
    it answers, with a float64 column ['value'] as the engine expects and
    the tests of the service supply, or the exception it raises. (The
    [SheetsService] of the repository is modelled apart, in [Sheets] below:
    the cells of its frames are strings.) *)
Record SheetsService := mkSheetsService {
  get_sales_data :
    date -> date -> option Z -> option string -> Exception + pd.DataFrame
}.

(** What a call reads from outside: [datetime.now().strftime('%Y%m%d')],
    [uuid.uuid4().hex] and the second [datetime.now()]. *)
Record Env := mkEnv {
  now_Ymd : string;
  uuid4_hex : string;
  now : Z
}.

(** ** The monad of the engine: the frame [historical_data] as state, and
       exceptions *)

Definition M (A : Type) : Type :=
  pd.DataFrame -> (Exception + A) * pd.DataFrame.

Definition ret {A : Type} (a : A) : M A := fun df => (inr a, df).

Definition bind {A B : Type} (m : M A) (k : A -> M B) : M B :=
  fun df =>
    match m df with
    | (inl e, df') => (inl e, df')
    | (inr a, df') => k a df'
    end.

Definition raise {A : Type} (e : Exception) : M A := fun df => (inl e, df).

Definition get_frame : M pd.DataFrame := fun df => (inr df, df).

Definition modify_frame (f : pd.DataFrame -> pd.DataFrame) : M unit :=
  fun df => (inr tt, f df).

Notation "x <- m ;; k" := (bind m (fun x => k))
  (at level 61, m at next level, right associativity).

(** [a[i]] on an array: [IndexError] past the end. *)
Definition getitem (a : list float) (i : nat) : M float :=
  match nth_error a i with
  | Some v => ret v
  | None => raise IndexError
  end.

(** [enumerate(l)]. *)
Fixpoint enumerate_from {A : Type} (i : nat) (l : list A) : list (nat * A) :=
  match l with
  | [] => []
  | x :: l' => (i, x) :: enumerate_from (S i) l'
  end.

Definition enumerate {A : Type} (l : list A) : list (nat * A) :=
  enumerate_from 0 l.

(** [out = []; for x in l: out.append(body(x))]. *)
Fixpoint for_append {A B : Type} (body : A -> M B) (l : list A) : M (list B) :=
  match l with
  | [] => ret []
  | x :: l' =>
      b <- body x ;;
      out <- for_append body l' ;;
      ret (b :: out)
  end.

(** Truth value of an [Optional[float]]: [None] and both zeros are false. *)
Definition truthy (c : option float) : bool :=
  match c with
  | None => false
  | Some x => negb (x =? 0)%float
  end.

(** [f"forecast-{datetime.now().strftime('%Y%m%d')}-{uuid.uuid4().hex[:8]}"]. *)
Definition forecast_id (env : Env) : string :=
  ("forecast-" ++ now_Ymd env ++ "-" ++ substring 0 8 (uuid4_hex env))%string.

(** ** app/services/forecast_service.py *)

Module ForecastService.

Definition _generate_basic_forecast (env : Env) (params : ForecastParameters)
  : M (list ForecastResponse) :=
  historical_data <- get_frame ;;
  let date_range := pd.date_range (start_date params) (end_date params) in
  let forecast_values :=
    if pd.empty historical_data then
      np.zeros (length date_range)
    else
      let mean_value := pd.Series_mean (pd.col_value historical_data) in
      map (fun one => (one * mean_value)%float) (np.ones (length date_range)) in
  data_points <-
    for_append
      (fun '(i, d) =>
         v <- getitem forecast_values i ;;
         ret {| point_date := d;
                value := v;
                confidence_lower := None;
                confidence_upper := None;
                is_actual := false |})
      (enumerate date_range) ;;
  ret [ {| id := forecast_id env;
           created_at := now env;
           parameters := params;
           data_points := data_points;
           metadata :=
             [ ("model_type"%string, SStr "simple_moving_average");
               ("data_points_count"%string,
                SInt (Z.of_nat (length data_points))) ] |} ].

Definition _generate_advanced_forecast (env : Env) (params : ForecastParameters)
  : M (list ForecastResponse) :=
  historical_data <- get_frame ;;
  let date_range := pd.date_range (start_date params) (end_date params) in
  if pd.empty historical_data || (pd.len historical_data <? 5) then
    _generate_basic_forecast env params
  else
    match pd.Series_min (pd.col_date historical_data) with
    | None => raise NaTError (* no minimum: only on a frame without rows *)
    | Some date_min =>
        let days_column :=
          map (fun d => d - date_min) (pd.col_date historical_data) in
        (* historical_data['days'] = ...: written on the frame received *)
        _ <- modify_frame (pd.set_days days_column) ;;
        (* X is the column just written, of shape (n, 1); y has shape (n,) *)
        let X := days_column in
        let y := pd.col_value historical_data in
        let mean_x := np.mean (map np.float_of_Z X) in
        let mean_y := np.mean y in
        let X_centred := map (fun x => (np.float_of_Z x - mean_x)%float) X in
        let y_centred := map (fun v => (v - mean_y)%float) y in
        let slope :=
          (np.sum (np.mul_column_row X_centred y_centred)
           / np.sum (map (fun u => (u * u)%float) X_centred))%float in
        let intercept := (mean_y - slope * mean_x)%float in
        (* the column 'date' is as it was: its minimum is [date_min] again *)
        let forecast_days := map (fun d => d - date_min) date_range in
        let forecast_values :=
          map (fun fd => (intercept + slope * np.float_of_Z fd)%float)
              forecast_days in
        let '(confidence_lower_, confidence_upper_) :=
          if truthy (confidence_level params) then
            let residuals :=
              map (fun '(yi, xi) =>
                     (yi - (intercept + slope * np.float_of_Z xi))%float)
                  (combine y X) in
            let std_error := np.std residuals in
            let z_score := 1.96%float in
            let margin := (z_score * std_error)%float in
            (Some (map (fun v => (v - margin)%float) forecast_values),
             Some (map (fun v => (v + margin)%float) forecast_values))
          else (None, None) in
        data_points <-
          for_append
            (fun '(i, d) =>
               v <- getitem forecast_values i ;;
               let data_point :=
                 {| point_date := d;
                    value := v;
                    confidence_lower := None;
                    confidence_upper := None;
                    is_actual := false |} in
               match confidence_lower_, confidence_upper_ with
               | Some lower, Some upper =>
                   lo <- getitem lower i ;;
                   up <- getitem upper i ;;
                   ret {| point_date := point_date data_point;
                          value := value data_point;
                          confidence_lower := Some lo;
                          confidence_upper := Some up;
                          is_actual := is_actual data_point |}
               | _, _ => ret data_point
               end)
            (enumerate date_range) ;;
        ret [ {| id := forecast_id env;
                 created_at := now env;
                 parameters := params;
                 data_points := data_points;
                 metadata :=
                   [ ("model_type"%string, SStr "linear_regression");
                     ("slope"%string, SFloat slope);
                     ("intercept"%string, SFloat intercept);
                     ("data_points_count"%string,
                      SInt (Z.of_nat (length data_points))) ] |} ]
    end.

Definition _generate_predictive_forecast (env : Env) (params : ForecastParameters)
  : M (list ForecastResponse) :=
  _generate_advanced_forecast env params.

(** The choice of the strategy in [get_forecasts], by [params.forecast_type]. *)
Definition generate_by_type (env : Env) (params : ForecastParameters)
  : M (list ForecastResponse) :=
  if String.eqb (forecast_type params) ForecastType.BASIC then
    _generate_basic_forecast env params
  else if String.eqb (forecast_type params) ForecastType.ADVANCED then
    _generate_advanced_forecast env params
  else if String.eqb (forecast_type params) ForecastType.PREDICTIVE then
    _generate_predictive_forecast env params
  else
    _generate_basic_forecast env params.

Definition get_forecasts (sheets_service : SheetsService) (env : Env)
    (params : ForecastParameters) (user : User)
  : Exception + list ForecastResponse :=
  match date_sub_days (start_date params) 90 with
  | inl e => inl e
  | inr history_start =>
      match date_sub_days (start_date params) 1 with
      | inl e => inl e
      | inr history_end =>
          match get_sales_data sheets_service history_start history_end
                  (sales_rep_id params) (category params) with
          | inl e => inl e
          | inr historical_data =>
              fst (generate_by_type env params historical_data)
          end
      end
  end.

Definition generate_advanced_forecast (sheets_service : SheetsService)
    (env : Env) (params : ForecastParameters) (user : User)
  : Exception + list ForecastResponse :=
  match date_sub_days (start_date params) 180 with
  | inl e => inl e
  | inr history_start =>
      match date_sub_days (start_date params) 1 with
      | inl e => inl e
      | inr history_end =>
          match get_sales_data sheets_service history_start history_end
                  (sales_rep_id params) (category params) with
          | inl e => inl e
          | inr historical_data =>
              fst (_generate_advanced_forecast env params historical_data)
          end
      end
  end.

End ForecastService.

(** ** Closed forms of what the engine computes

    The definitions below name the quantities the two strategies compute
    inline; the lemmas [basic_run] and [advanced_run] show that the engine
    returns exactly them. *)

Import ForecastService.

(** The constant the basic strategy projects. *)
Definition basic_value (df : pd.DataFrame) : float :=
  if pd.empty df then 0%float
  else (1 * pd.Series_mean (pd.col_value df))%float.

Definition basic_point (df : pd.DataFrame) (d : date) : ForecastDataPoint :=
  {| point_date := d;
     value := basic_value df;
     confidence_lower := None;
     confidence_upper := None;
     is_actual := false |}.

Definition basic_response (env : Env) (params : ForecastParameters)
    (df : pd.DataFrame) : ForecastResponse :=
  let points :=
    map (basic_point df) (pd.date_range (start_date params) (end_date params)) in
  {| id := forecast_id env;
     created_at := now env;
     parameters := params;
     data_points := points;
     metadata :=
       [ ("model_type"%string, SStr "simple_moving_average");
         ("data_points_count"%string, SInt (Z.of_nat (length points))) ] |}.

(** The guard of the advanced strategy: too little data for a regression. *)
Definition too_small (df : pd.DataFrame) : bool :=
  pd.empty df || (pd.len df <? 5).

(** The column ['days'] the advanced strategy writes: the offset of each row
    from the earliest date. *)
Definition days_since_min (df : pd.DataFrame) : list Z :=
  match pd.Series_min (pd.col_date df) with
  | Some date_min => map (fun d => d - date_min) (pd.col_date df)
  | None => []
  end.

Definition fit_slope (X : list Z) (y : list float) : float :=
  let mean_x := np.mean (map np.float_of_Z X) in
  let mean_y := np.mean y in
  let X_centred := map (fun x => (np.float_of_Z x - mean_x)%float) X in
  let y_centred := map (fun v => (v - mean_y)%float) y in
  (np.sum (np.mul_column_row X_centred y_centred)
   / np.sum (map (fun u => (u * u)%float) X_centred))%float.

Definition fit_intercept (X : list Z) (y : list float) : float :=
  (np.mean y - fit_slope X y * np.mean (map np.float_of_Z X))%float.

(** [1.96] times the population standard deviation of the residuals. *)
Definition fit_margin (X : list Z) (y : list float) : float :=
  let residuals :=
    map (fun '(yi, xi) =>
           (yi - (fit_intercept X y + fit_slope X y * np.float_of_Z xi))%float)
        (combine y X) in
  (1.96 * np.std residuals)%float.

Definition advanced_point (date_min : date) (X : list Z) (y : list float)
    (level : option float) (d : date) : ForecastDataPoint :=
  let v :=
    (fit_intercept X y + fit_slope X y * np.float_of_Z (d - date_min))%float in
  {| point_date := d;
     value := v;
     confidence_lower :=
       if truthy level then Some (v - fit_margin X y)%float else None;
     confidence_upper :=
       if truthy level then Some (v + fit_margin X y)%float else None;
     is_actual := false |}.

Definition advanced_response (env : Env) (params : ForecastParameters)
    (date_min : date) (df : pd.DataFrame) : ForecastResponse :=
  let X := map (fun d => d - date_min) (pd.col_date df) in
  let y := pd.col_value df in
  let points :=
    map (advanced_point date_min X y (confidence_level params))
        (pd.date_range (start_date params) (end_date params)) in
  {| id := forecast_id env;
     created_at := now env;
     parameters := params;
     data_points := points;
     metadata :=
       [ ("model_type"%string, SStr "linear_regression");
         ("slope"%string, SFloat (fit_slope X y));
         ("intercept"%string, SFloat (fit_intercept X y));
         ("data_points_count"%string, SInt (Z.of_nat (length points))) ] |}.

(** The data points of a run of the engine, when it succeeds. *)
Definition points_of (r : (Exception + list ForecastResponse) * pd.DataFrame)
  : Exception + list (list ForecastDataPoint) :=
  match fst r with
  | inl e => inl e
  | inr responses => inr (map data_points responses)
  end.

Definition with_include_historical (b : bool) (params : ForecastParameters)
  : ForecastParameters :=
  {| start_date := start_date params;
     end_date := end_date params;
     sales_rep_id := sales_rep_id params;
     category := category params;
     forecast_type := forecast_type params;
     include_historical := b;
     confidence_level := confidence_level params |}.

(** A run succeeds with exactly one response, which has one data point per
    day of the requested range: [(end_date - start_date).days + 1] points,
    the i-th dated [start_date + i]. *)
Definition covers_range (params : ForecastParameters)
    (r : (Exception + list ForecastResponse) * pd.DataFrame) : Prop :=
  exists response,
    fst r = inr [response]
    /\ Z.of_nat (length (data_points response))
       = end_date params - start_date params + 1
    /\ forall i, (i < length (data_points response))%nat ->
         option_map point_date (nth_error (data_points response) i)
         = Some (start_date params + Z.of_nat i).

(** A strategy is deterministic in its data points: they do not depend on the
    clock or on the identifier drawn, and a second call on the frame the first
    call leaves behind gives them again. *)
Definition deterministic
    (generate : Env -> ForecastParameters -> M (list ForecastResponse)) : Prop :=
  forall (env1 env2 : Env) (params : ForecastParameters) (df : pd.DataFrame),
    points_of (generate env1 params df) = points_of (generate env2 params df)
    /\ points_of (generate env2 params (snd (generate env1 params df)))
       = points_of (generate env1 params df)
    /\ exists points, points_of (generate env1 params df) = inr points.

(** The flag [include_historical] has no effect on a strategy: the data points
    are the same whatever its value, none of them is marked as actual, and
    their dates are exactly the days of the requested range. *)
Definition ignores_include_historical
    (generate : Env -> ForecastParameters -> M (list ForecastResponse)) : Prop :=
  forall (env : Env) (params : ForecastParameters) (df : pd.DataFrame) (b : bool),
    points_of (generate env (with_include_historical b params) df)
    = points_of (generate env params df)
    /\ exists response,
         fst (generate env params df) = inr [response]
         /\ Forall (fun p => is_actual p = false) (data_points response)
         /\ map point_date (data_points response)
            = pd.date_range (start_date params) (end_date params).


(** The values a sum of zero products can take. *)
Definition signed_zero_or_nan (x : float) : Prop :=
  x = 0%float \/ x = (-0)%float \/ x = PrimFloat.nan.

(** ** Binary64 numbers and their rounding, as [SpecFloat] has them

    A finite number is a sign, a mantissa [m] and an exponent [e], and stands
    for [m * 2^e]. *)



(** The absolute value [m * 2^e], in units of [2^-1074]. *)
Definition magnitude (m : positive) (e : Z) : Z := Zpos m * 2 ^ (e + 1074).







(** The number a finite binary64 value stands for, exactly, in units of
    [2^-1074]; infinities and NaN stand for no number. *)
Definition exact (x : float) : option Z :=
  match Prim2SF x with
  | S754_zero _ => Some 0
  | S754_finite s m e => Some (cond_Zopp s (magnitude m e))
  | _ => None
  end.


(** ** Concrete histories and requests *)

Module Examples.

Definition env : Env :=
  {| now_Ymd := "20250518";
     uuid4_hex := "0123456789abcdef0123456789abcdef";
     now := 1747562400 |}.

Definition row (d : date) (v : float) : pd.Row :=
  {| pd.row_date := d;
     pd.row_value := v;
     pd.row_sales_rep_id := None;
     pd.row_category := None |}.

Arguments row d%_Z v%_float.

(** Five sales, one a day. *)
Definition history_daily : pd.DataFrame :=
  {| pd.rows := [row 10 1; row 11 5; row 12 3; row 13 4; row 14 5];
     pd.days := None |}.

(** Five sales, all on the same day. *)
Definition history_one_day : pd.DataFrame :=
  {| pd.rows := [row 10 1; row 10 2; row 10 3; row 10 4; row 10 5];
     pd.days := None |}.

(** Three sales: too few for the regression. *)
Definition history_short : pd.DataFrame :=
  {| pd.rows := [row 12 2; row 13 4; row 14 6];
     pd.days := None |}.

Definition history_empty : pd.DataFrame :=
  {| pd.rows := []; pd.days := None |}.



(** A request for the three days 15, 16 and 17. *)
Definition request (forecast_type : string) (level : option float)
  : ForecastParameters :=
  {| start_date := 15;
     end_date := 17;
     sales_rep_id := None;
     category := None;
     forecast_type := forecast_type;
     include_historical := false;
     confidence_level := level |}.

Definition point (d : date) (v : float) (bounds : option (float * float))
  : ForecastDataPoint :=
  {| point_date := d;
     value := v;
     confidence_lower := option_map fst bounds;
     confidence_upper := option_map snd bounds;
     is_actual := false |}.

End Examples.

(** ** Reading a result, and moving a request in time *)

(** [metadata.get(key)] on the dictionary of a response. *)
Fixpoint metadata_get (key : string) (m : list (string * Scalar))
  : option Scalar :=
  match m with
  | [] => None
  | (k, v) :: m' => if String.eqb key k then Some v else metadata_get key m'
  end.

(** The data points of what a service method returns. *)
Definition response_points (r : Exception + list ForecastResponse)
  : Exception + list (list ForecastDataPoint) :=
  match r with
  | inl e => inl e
  | inr responses => inr (map data_points responses)
  end.

Definition with_forecast_type (t : string) (params : ForecastParameters)
  : ForecastParameters :=
  {| start_date := start_date params;
     end_date := end_date params;
     sales_rep_id := sales_rep_id params;
     category := category params;
     forecast_type := t;
     include_historical := include_historical params;
     confidence_level := confidence_level params |}.

(** The same history, every sale [k] days later. *)
Definition shift_row (k : Z) (r : pd.Row) : pd.Row :=
  {| pd.row_date := pd.row_date r + k;
     pd.row_value := pd.row_value r;
     pd.row_sales_rep_id := pd.row_sales_rep_id r;
     pd.row_category := pd.row_category r |}.

Definition shift_frame (k : Z) (df : pd.DataFrame) : pd.DataFrame :=
  {| pd.rows := map (shift_row k) (pd.rows df); pd.days := pd.days df |}.

(** The same request, for a range [k] days later. *)
Definition shift_params (k : Z) (params : ForecastParameters)
  : ForecastParameters :=
  {| start_date := start_date params + k;
     end_date := end_date params + k;
     sales_rep_id := sales_rep_id params;
     category := category params;
     forecast_type := forecast_type params;
     include_historical := include_historical params;
     confidence_level := confidence_level params |}.

Definition shift_point (k : Z) (p : ForecastDataPoint) : ForecastDataPoint :=
  {| point_date := point_date p + k;
     value := value p;
     confidence_lower := confidence_lower p;
     confidence_upper := confidence_upper p;
     is_actual := is_actual p |}.

(** ** app/services/sheets_service.py

    The Google Sheets API answers the formatted values of the cells: every
    cell, the header cells included, is a string. *)

Module Sheets.

(** A Python [dict] from strings to strings: an association list without a
    repeated key, in insertion order. *)
Definition Dict := list (string * string).

Fixpoint dict_get (key : string) (d : Dict) : option string :=
  match d with
  | [] => None
  | (k, v) :: d' => if String.eqb key k then Some v else dict_get key d'
  end.

(** [d[key] = v]: the value of a key that is present is replaced, where the
    key stands; a new key is added at the end. *)
Fixpoint dict_set (key v : string) (d : Dict) : Dict :=
  match d with
  | [] => [(key, v)]
  | (k, w) :: d' =>
      if String.eqb key k then (k, v) :: d' else (k, w) :: dict_set key v d'
  end.

(** [dict(pairs)]. *)
Definition dict_of (pairs : list (string * string)) : Dict :=
  fold_left (fun d kv => dict_set (fst kv) (snd kv) d) pairs [].

(** What is raised inside [get_sales_data], before it is wrapped. *)
Inductive Raised : Type :=
| UpstreamHTTP (status_code : Z) (detail : string)
| TransportError (message : string)
| JSONDecodeError (message : string)
| KeyError (key : string)
| DateParseError (message : string).

(** The reply to [client.get(url)]: its status, its text, and its body as
    JSON: the list under ['values'] of the object, if the object has one. *)
Record Response := mkResponse {
  status_code : Z;
  text : string;
  json : Raised + option (list (list string))
}.

(** The frame [get_sales_data] returns: its columns and its rows, each row
    with the timestamp of its column ['date'] ([None] is NaT) and its
    cells. *)
Record Frame := mkFrame {
  columns : list string;
  rows : list (option date * Dict)
}.

(** [cell == sales_rep_id], a [str] against an [int]: never equal. *)
Definition str_eq_int (cell : string) (n : Z) : bool := false.

(** [row + [''] * (len(headers) - len(row))]. *)
Definition pad_row (headers row : list string) : list string :=
  (row ++ repeat EmptyString (length headers - length row))%list.

(** [_fetch_sheet_data], from the reply of the API (or the exception of the
    request). *)
Definition _fetch_sheet_data (reply : Raised + Response)
  : Raised + list Dict :=
  match reply with
  | inl e => inl e
  | inr response =>
      if negb (status_code response =? 200) then
        inl (UpstreamHTTP (status_code response)
               ("Google Sheets API error: " ++ text response))
      else
        match json response with
        | inl e => inl e
        | inr None => inr []
        | inr (Some values) =>
            match values with
            | [] => inr []
            | headers :: data_rows =>
                inr (map (fun row =>
                            dict_of (combine headers (pad_row headers row)))
                         data_rows)
            end
        end
  end.

(** The cell of a row in a column of the frame. *)
Definition cell (name : string) (r : option date * Dict) : string :=
  match dict_get name (snd r) with
  | Some c => c
  | None => EmptyString
  end.

(** [df[name]]: the cells of a column, [KeyError] without it. *)
Definition column (name : string) (cols : list string)
    (records : list (option date * Dict)) : Raised + list string :=
  if existsb (String.eqb name) cols then inr (map (cell name) records)
  else inl (KeyError name).

Section GetSalesData.

(** [pd.to_datetime] on a column of strings: the message of its error, or
    one timestamp per cell, a day ordinal (the cells are dates without a time
    of day) or NaT; and [str(e)]. *)
Variable to_datetime : list string -> string + list (option date).
Variable str_of : Raised -> string.

(** The body of the [try] of [get_sales_data]. *)
Definition fetch_and_filter (reply : Raised + Response)
    (start_date end_date : date)
    (sales_rep_id : option Z) (category : option string)
  : Raised + Frame :=
  match _fetch_sheet_data reply with
  | inl e => inl e
  | inr raw_data =>
      (* pd.DataFrame(raw_data): the columns are the keys of the records *)
      let cols := match raw_data with
                  | [] => []
                  | record :: _ => map fst record
                  end in
      let records := map (fun record => (@None date, record)) raw_data in
      match column "date" cols records with
      | inl e => inl e
      | inr date_cells =>
          match to_datetime date_cells with
          | inl message => inl (DateParseError message)
          | inr timestamps =>
              (* df['date'] = ...: one timestamp per record *)
              let records :=
                map (fun tr => (fst tr, snd (snd tr)))
                    (combine timestamps records) in
              (* df = df[mask]: NaT compares false *)
              let records :=
                filter (fun r => match fst r with
                                 | Some d => (start_date <=? d) && (d <=? end_date)
                                 | None => false
                                 end) records in
              let by_sales_rep :=
                match sales_rep_id with
                | None => inr records
                | Some n =>
                    match column "sales_rep_id" cols records with
                    | inl e => inl e
                    | inr cells =>
                        inr (map snd
                               (filter (fun cr => str_eq_int (fst cr) n)
                                       (combine cells records)))
                    end
                end in
              match by_sales_rep with
              | inl e => inl e
              | inr records =>
                  match category with
                  | None => inr {| columns := cols; rows := records |}
                  | Some c =>
                      match column "category" cols records with
                      | inl e => inl e
                      | inr cells =>
                          inr {| columns := cols;
                                 rows :=
                                   map snd
                                     (filter (fun cr => String.eqb (fst cr) c)
                                             (combine cells records)) |}
                      end
                  end
              end
          end
      end
  end.

(** [get_sales_data]: whatever the body raises is raised again as an
    [HTTPException] of status 500. *)
Definition get_sales_data (reply : Raised + Response)
    (start_date end_date : date)
    (sales_rep_id : option Z) (category : option string)
  : Exception + Frame :=
  match fetch_and_filter reply start_date end_date sales_rep_id category with
  | inl e =>
      inl (HTTPException 500
             ("Error fetching data from Google Sheets: " ++ str_of e))
  | inr df => inr df
  end.

End GetSalesData.

End Sheets.

(** ** A sheet and its reading, for examples *)

Module SheetExamples.

(** The date cells of the sheets below: three days of May 2025, by their
    day ordinals; the empty cell of a short row is NaT, and the sheets hold
    no other string in the column. *)
Definition to_datetime (cells : list string) : string + list (option date) :=
  inr (map (fun c =>
              if String.eqb c "2025-05-01" then Some 739372
              else if String.eqb c "2025-05-02" then Some 739373
              else if String.eqb c "2025-05-03" then Some 739374
              else None)
           cells).

(** [str(e)]: an [HTTPException] prints as its status, a colon and its
    detail; a [KeyError] as the [repr] of the key, which for the names of the
    columns is the name between single quotes; the others as their
    message. *)
Definition str_of (e : Sheets.Raised) : string :=
  match e with
  | Sheets.UpstreamHTTP status detail =>
      NilZero.string_of_int (Z.to_int status) ++ ": " ++ detail
  | Sheets.TransportError message => message
  | Sheets.JSONDecodeError message => message
  | Sheets.KeyError key => "'" ++ key ++ "'"
  | Sheets.DateParseError message => message
  end.

Definition sheet : Sheets.Response :=
  Sheets.mkResponse 200 "ok"
    (inr (Some [ ["date"; "value"; "sales_rep_id"; "category"];
                 ["2025-05-01"; "120"; "1"; "smb"];
                 ["2025-05-02"; "80"; "2"; "enterprise"];
                 ["2025-05-03"; "100"; "1"; "smb"] ]%string)).

Definition header_only : Sheets.Response :=
  Sheets.mkResponse 200 "ok"
    (inr (Some [ ["date"; "value"; "sales_rep_id"; "category"] ]%string)).

Definition forbidden : Sheets.Response :=
  Sheets.mkResponse 403 "The caller does not have permission" (inr None).

End SheetExamples.

(** ** The loop that builds the data points *)

Section Loops.

Context {A B : Type}.

Lemma for_append_pure (body : A -> M B) (g : A -> B) (df : pd.DataFrame) :
  forall l : list A,
    (forall x, In x l -> body x df = (inr (g x), df)) ->
    for_append body l df = (inr (map g l), df).
Proof.
  induction l as [|x l IH]; intros Hbody; [reflexivity|].
  cbn [for_append map]. unfold bind at 1.
  rewrite (Hbody x (or_introl eq_refl)).
  unfold bind at 1. rewrite IH by (intros z Hz; apply Hbody; now right).
  reflexivity.
Qed.

Lemma in_enumerate_from (l : list A) :
  forall k i x, In (i, x) (enumerate_from k l) ->
                (k <= i)%nat /\ nth_error l (i - k) = Some x.
Proof.
  induction l as [|a l IH]; intros k i x Hin; [destruct Hin|].
  destruct Hin as [Heq|Hin].
  - inversion Heq; subst. rewrite Nat.sub_diag. split; [lia|reflexivity].
  - apply IH in Hin. destruct Hin as [Hle Hnth]. split; [lia|].
    replace (i - k)%nat with (S (i - S k)) by lia. exact Hnth.
Qed.

Lemma in_enumerate (l : list A) (i : nat) (x : A) :
  In (i, x) (enumerate l) -> nth_error l i = Some x.
Proof.
  intros Hin. apply in_enumerate_from in Hin.
  rewrite Nat.sub_0_r in Hin. tauto.
Qed.

Lemma map_snd_enumerate_from (l : list A) :
  forall k, map snd (enumerate_from k l) = l.
Proof.
  induction l as [|a l IH]; intros k; [reflexivity|].
  cbn. now rewrite IH.
Qed.

Lemma map_enumerate (g : A -> B) (l : list A) :
  map (fun p : nat * A => g (snd p)) (enumerate l) = map g l.
Proof.
  unfold enumerate. rewrite <- (map_map snd g), map_snd_enumerate_from.
  reflexivity.
Qed.

End Loops.

Lemma getitem_map {A : Type} (f : A -> float) (l : list A) (i : nat) (x : A)
    (df : pd.DataFrame) :
  nth_error l i = Some x -> getitem (map f l) i df = (inr (f x), df).
Proof.
  intros Hnth. unfold getitem. rewrite nth_error_map, Hnth. reflexivity.
Qed.

Lemma getitem_repeat (c : float) (n i : nat) (df : pd.DataFrame) :
  (i < n)%nat -> getitem (repeat c n) i df = (inr c, df).
Proof.
  intros Hlt. unfold getitem. rewrite nth_error_repeat by exact Hlt.
  reflexivity.
Qed.

(** ** The two strategies in closed form *)

Lemma basic_run (env : Env) (params : ForecastParameters) (df : pd.DataFrame) :
  _generate_basic_forecast env params df
  = (inr [basic_response env params df], df).
Proof.
  unfold _generate_basic_forecast, basic_response.
  unfold bind at 1. cbn [get_frame].
  set (date_range := pd.date_range (start_date params) (end_date params)).
  unfold bind at 1.
  rewrite (for_append_pure _ (fun p => basic_point df (snd p))).
  - rewrite map_enumerate. reflexivity.
  - intros [i d] Hin. apply in_enumerate in Hin.
    assert (Hlt : (i < length date_range)%nat)
      by (apply nth_error_Some; congruence).
    unfold bind, basic_point, basic_value, np.zeros, np.ones.
    destruct (pd.empty df).
    + rewrite getitem_repeat by exact Hlt. reflexivity.
    + rewrite (getitem_map _ _ i 1%float)
        by (apply nth_error_repeat; exact Hlt).
      reflexivity.
Qed.

Lemma Series_min_rows (df : pd.DataFrame) :
  pd.empty df = false -> exists date_min, pd.Series_min (pd.col_date df) = Some date_min.
Proof.
  unfold pd.empty, pd.col_date. destruct (pd.rows df) as [|r rs]; [discriminate|].
  intros _. cbn. eauto.
Qed.

Lemma advanced_run_small (env : Env) (params : ForecastParameters)
    (df : pd.DataFrame) :
  too_small df = true ->
  _generate_advanced_forecast env params df
  = _generate_basic_forecast env params df.
Proof.
  intros Hsmall. unfold _generate_advanced_forecast.
  unfold bind at 1. cbn [get_frame].
  unfold too_small in Hsmall. rewrite Hsmall. reflexivity.
Qed.

Lemma advanced_run (env : Env) (params : ForecastParameters)
    (df : pd.DataFrame) (date_min : date) :
  too_small df = false ->
  pd.Series_min (pd.col_date df) = Some date_min ->
  _generate_advanced_forecast env params df
  = (inr [advanced_response env params date_min df],
     pd.set_days (map (fun d => d - date_min) (pd.col_date df)) df).
Proof.
  intros Hbig Hmin. unfold _generate_advanced_forecast, advanced_response.
  unfold bind at 1. cbn [get_frame].
  unfold too_small in Hbig. rewrite Hbig, Hmin.
  unfold bind at 1. cbn [modify_frame].
  set (date_range := pd.date_range (start_date params) (end_date params)).
  set (X := map (fun d => d - date_min) (pd.col_date df)).
  set (y := pd.col_value df).
  set (df' := pd.set_days X df).
  fold (fit_slope X y). fold (fit_intercept X y).
  destruct (truthy (confidence_level params)) eqn:Hlevel.
  - fold (fit_margin X y). unfold bind at 1.
    rewrite (for_append_pure _
               (fun p => advanced_point date_min X y (confidence_level params)
                                        (snd p))).
    + rewrite map_enumerate. reflexivity.
    + intros [i d] Hin. apply in_enumerate in Hin.
      unfold bind, advanced_point. rewrite Hlevel.
      rewrite map_map.
      rewrite (getitem_map _ _ i d) by exact Hin.
      cbn [point_date value is_actual].
      rewrite !map_map.
      rewrite (getitem_map _ _ i d) by exact Hin.
      rewrite (getitem_map _ _ i d) by exact Hin.
      reflexivity.
  - unfold bind at 1.
    rewrite (for_append_pure _
               (fun p => advanced_point date_min X y (confidence_level params)
                                        (snd p))).
    + rewrite map_enumerate. reflexivity.
    + intros [i d] Hin. apply in_enumerate in Hin.
      unfold bind, advanced_point. rewrite Hlevel.
      rewrite map_map.
      rewrite (getitem_map _ _ i d) by exact Hin.
      reflexivity.
Qed.

(** ** Binary64 facts the basic strategy needs *)

Section Float64.






(** *** Zeros and NaN *)

Lemma float_of_spec (x : float) (s : spec_float) :
  Prim2SF x = s -> x = SF2Prim s.
Proof.
  intros <-. symmetry. apply SF2Prim_Prim2SF.
Qed.

Lemma mul_nan_l (x : float) : (PrimFloat.nan * x)%float = PrimFloat.nan.
Proof.
  apply Prim2SF_inj. rewrite FloatAxioms.mul_spec.
  change (Prim2SF PrimFloat.nan) with S754_nan. reflexivity.
Qed.

Lemma add_nan_r (x : float) : (x + PrimFloat.nan)%float = PrimFloat.nan.
Proof.
  apply Prim2SF_inj. rewrite FloatAxioms.add_spec.
  change (Prim2SF PrimFloat.nan) with S754_nan.
  now destruct (Prim2SF x) as [[]|[]| |[] ? ?].
Qed.

Lemma div_zero_l (x z : float) :
  signed_zero_or_nan z -> signed_zero_or_nan (z / x)%float.
Proof.
  unfold signed_zero_or_nan.
  rewrite (float_of_spec (z / x) _ (FloatAxioms.div_spec z x)).
  intros [->|[->| ->]];
    [change (Prim2SF 0) with (S754_zero false)
    |change (Prim2SF (-0)) with (S754_zero true)
    |change (Prim2SF PrimFloat.nan) with S754_nan];
    destruct (Prim2SF x) as [[]|[]| |[] ? ?]; cbn; tauto.
Qed.

Lemma mul_zero_l (x : float) : signed_zero_or_nan (0 * x)%float.
Proof.
  unfold signed_zero_or_nan.
  rewrite (float_of_spec (0 * x) _ (FloatAxioms.mul_spec 0 x)).
  change (Prim2SF 0) with (S754_zero false).
  destruct (Prim2SF x) as [[]|[]| |[] ? ?]; cbn; tauto.
Qed.

Lemma add_signed_zero_or_nan (x y : float) :
  signed_zero_or_nan x -> signed_zero_or_nan y ->
  signed_zero_or_nan (x + y)%float.
Proof.
  unfold signed_zero_or_nan.
  intros [->|[->| ->]] [->|[->| ->]]; vm_compute; tauto.
Qed.

Lemma div_signed_zero_or_nan (x y : float) :
  signed_zero_or_nan x -> signed_zero_or_nan y ->
  (x / y)%float = PrimFloat.nan.
Proof.
  unfold signed_zero_or_nan.
  intros [->|[->| ->]] [->|[->| ->]]; reflexivity.
Qed.

(** *** Sums: what holds of the terms and is kept by an addition holds of
        the sum, in whatever order numpy adds. *)

Section SumClosed.

Variable P : float -> Prop.
Hypothesis P_add : forall x y, P x -> P y -> P (x + y)%float.

Lemma fold_add_closed (a : list float) :
  forall acc, P acc -> Forall P a -> P (fold_left PrimFloat.add a acc).
Proof.
  induction a as [|x a IH]; intros acc Hacc Hall; [exact Hacc|].
  inversion Hall; subst. cbn [fold_left]. apply IH; [|assumption].
  now apply P_add.
Qed.

Lemma pairwise_block_closed (n : nat) :
  forall (a : list float) (r0 r1 r2 r3 r4 r5 r6 r7 : float),
    (length a <= n)%nat ->
    P r0 -> P r1 -> P r2 -> P r3 -> P r4 -> P r5 -> P r6 -> P r7 ->
    Forall P a ->
    P (np.pairwise_block r0 r1 r2 r3 r4 r5 r6 r7 a).
Proof.
  induction n as [|n IH]; intros a r0 r1 r2 r3 r4 r5 r6 r7 Hlen
    H0 H1 H2 H3 H4 H5 H6 H7 Hall.
  - destruct a; [|cbn in Hlen; lia]. cbn. auto.
  - destruct a as [|x0 [|x1 [|x2 [|x3 [|x4 [|x5 [|x6 [|x7 a']]]]]]]];
      cbn [np.pairwise_block];
      try (apply fold_add_closed; [auto|exact Hall]).
    repeat match goal with
           | H : Forall P (_ :: _) |- _ => inversion H; subst; clear H
           end.
    apply IH; auto. cbn [length] in Hlen. lia.
Qed.

Hypothesis P_negative_zero : P (-0)%float.

Lemma pairwise_small_closed (a : list float) :
  Forall P a -> P (np.pairwise_small a).
Proof.
  intros Hall.
  destruct a as [|x0 [|x1 [|x2 [|x3 [|x4 [|x5 [|x6 [|x7 a']]]]]]]];
    cbn [np.pairwise_small];
    try (apply fold_add_closed; [exact P_negative_zero|exact Hall]).
  repeat match goal with
         | H : Forall P (_ :: _) |- _ => inversion H; subst; clear H
         end.
  apply (pairwise_block_closed (length a')); auto.
Qed.

Lemma pairwise_sum_rec_closed (depth : nat) :
  forall a, Forall P a -> P (np.pairwise_sum_rec depth a).
Proof.
  induction depth as [|depth IH]; intros a Hall; cbn [np.pairwise_sum_rec].
  - now apply pairwise_small_closed.
  - destruct (length a <=? 128)%nat; [now apply pairwise_small_closed|].
    set (n2 := (length a / 2 - (length a / 2) mod 8)%nat).
    rewrite <- (firstn_skipn n2 a) in Hall. apply Forall_app in Hall.
    destruct Hall as [Hfirst Hrest]. apply P_add; now apply IH.
Qed.

Lemma sum_closed (a : list float) :
  a <> [] -> Forall P a -> P (np.sum a).
Proof.
  intros Hne Hall. destruct a; [congruence|].
  now apply pairwise_sum_rec_closed.
Qed.

End SumClosed.

Lemma sum_signed_zero_or_nan (a : list float) :
  Forall signed_zero_or_nan a -> signed_zero_or_nan (np.sum a).
Proof.
  intros Hall. destruct a as [|x a]; [now left|].
  apply (sum_closed signed_zero_or_nan add_signed_zero_or_nan);
    [right; now left|discriminate|exact Hall].
Qed.

(** The order of the additions shows in the last digit: ten times [0.1],
    and the reciprocals of 1 to 300, added as numpy does and from left to
    right; and a NaN entry is left out of pandas' mean. *)
Lemma sums_in_numpy_order :
  np.mean (repeat 0.1%float 10) = 0.1%float
  /\ (fold_left PrimFloat.add (repeat 0.1%float 10) 0 / 10)%float
     = 0.09999999999999999%float
  /\ np.sum (map (fun i => (1 / np.float_of_nat (S i))%float) (seq 0 300))
     = 6.282663880299504%float
  /\ fold_left PrimFloat.add
       (map (fun i => (1 / np.float_of_nat (S i))%float) (seq 0 300)) 0%float
     = 6.282663880299502%float
  /\ np.sum [(-0)%float; (-0)%float] = (-0)%float
  /\ pd.Series_mean [1; PrimFloat.nan; 3]%float = 2%float.
Proof.
  repeat split; vm_compute; reflexivity.
Qed.

(** The number of cuts of a sum: any depth from the length of the array on
    gives the same sum. *)
Lemma pairwise_sum_depth (d1 : nat) :
  forall (d2 : nat) (a : list float),
    (length a <= d1)%nat -> (length a <= d2)%nat ->
    np.pairwise_sum_rec d1 a = np.pairwise_sum_rec d2 a.
Proof.
  induction d1 as [|d1 IH]; intros d2 a H1 H2.
  - destruct a; [|cbn in H1; lia]. destruct d2; reflexivity.
  - destruct d2 as [|d2].
    + destruct a; [|cbn in H2; lia]. reflexivity.
    + cbn [np.pairwise_sum_rec].
      destruct (Nat.leb_spec (length a) 128) as [Hsmall|Hlong]; [reflexivity|].
      set (n2 := (length a / 2 - (length a / 2) mod 8)%nat).
      assert (Hhalf : (64 <= length a / 2 <= length a)%nat).
      { split; [apply Nat.div_le_lower_bound; lia
               |apply Nat.Div0.div_le_upper_bound; lia]. }
      assert (Hmod : ((length a / 2) mod 8 < 8)%nat)
        by (apply Nat.mod_upper_bound; lia).
      assert (Hhalf2 : (2 * (length a / 2) <= length a)%nat)
        by (apply Nat.Div0.mul_div_le).
      assert (Hn2 : (0 < n2 < length a)%nat) by (unfold n2; lia).
      f_equal; apply IH;
        rewrite ?length_firstn, ?length_skipn; lia.
Qed.

End Float64.

(** ** Binary64 rounding: a margin that is not negative moves a value the
       way its sign says *)

Section Rounding.







Lemma pow2_lt (a b : Z) : 0 <= a < b -> 2 ^ a < 2 ^ b.
Proof. intros. apply Z.pow_lt_mono_r; lia. Qed.















(** The exponent the format gives grows with the magnitude. *)






(** Comparisons of finite numbers of one sign, from the order of the pairs. *)















End Rounding.

(** ** Whole numbers: below [2^53] their binary64 sums are exact *)

Section ExactSums.




























End ExactSums.

(** ** The requested range *)

Lemma date_range_length (start end_ : date) :
  start <= end_ ->
  Z.of_nat (length (pd.date_range start end_)) = end_ - start + 1.
Proof.
  intros Hle. unfold pd.date_range. rewrite length_map, length_seq. lia.
Qed.

Lemma date_range_nth (start end_ : date) (i : nat) :
  (i < length (pd.date_range start end_))%nat ->
  nth_error (pd.date_range start end_) i = Some (start + Z.of_nat i).
Proof.
  unfold pd.date_range. rewrite length_map, length_seq. intros Hlt.
  rewrite nth_error_map, nth_error_seq.
  destruct (Nat.ltb_spec i (Z.to_nat (end_ - start + 1))); [reflexivity|lia].
Qed.

Lemma covers_range_map (params : ForecastParameters)
    (f : date -> ForecastDataPoint) (response : ForecastResponse)
    (df : pd.DataFrame) :
  (forall d, point_date (f d) = d) ->
  data_points response
  = map f (pd.date_range (start_date params) (end_date params)) ->
  start_date params <= end_date params ->
  covers_range params (inr [response], df).
Proof.
  intros Hdate Hpoints Hle. exists response. rewrite Hpoints, length_map.
  split; [reflexivity|]. split; [now apply date_range_length|].
  intros i Hlt. rewrite nth_error_map, date_range_nth by exact Hlt.
  cbn. now rewrite Hdate.
Qed.

Lemma too_small_not_empty (df : pd.DataFrame) :
  too_small df = false -> pd.empty df = false.
Proof.
  unfold too_small. intros H. apply orb_false_iff in H. tauto.
Qed.

(** The advanced strategy in one equation, whatever the size of the frame. *)
Lemma advanced_cases (env : Env) (params : ForecastParameters)
    (df : pd.DataFrame) :
  (too_small df = true
   /\ _generate_advanced_forecast env params df
      = (inr [basic_response env params df], df))
  \/ (too_small df = false
      /\ exists date_min,
           pd.Series_min (pd.col_date df) = Some date_min
           /\ _generate_advanced_forecast env params df
              = (inr [advanced_response env params date_min df],
                 pd.set_days (map (fun d => d - date_min) (pd.col_date df)) df)).
Proof.
  destruct (too_small df) eqn:Hsize.
  - left. split; [reflexivity|].
    rewrite advanced_run_small by exact Hsize. apply basic_run.
  - right. split; [reflexivity|].
    destruct (Series_min_rows df (too_small_not_empty df Hsize)) as [m Hm].
    exists m. split; [exact Hm|]. now apply advanced_run.
Qed.

(** The slope of the fit is NaN when every offset is zero: the centred
    offsets are zeros (or NaN), so both sums of the quotient are a zero or
    NaN. *)
Lemma fit_slope_zero_offsets (X : list Z) (y : list float) :
  X <> [] -> Forall (fun x => x = 0) X -> fit_slope X y = PrimFloat.nan.
Proof.
  intros Hne Hall. unfold fit_slope.
  set (mean_x := np.mean (map np.float_of_Z X)).
  set (y_centred := map _ y).
  assert (Hmean : signed_zero_or_nan mean_x).
  { unfold mean_x, np.mean. apply div_zero_l, sum_signed_zero_or_nan.
    apply Forall_map. eapply Forall_impl; [|exact Hall].
    intros x ->. now left. }
  assert (Hcentred :
            exists c, (c = 0%float \/ c = PrimFloat.nan)
                      /\ map (fun x => (np.float_of_Z x - mean_x)%float) X
                         = map (fun _ => c) X).
  { exists (0 - mean_x)%float. split.
    - destruct Hmean as [->|[->| ->]]; vm_compute; tauto.
    - apply map_ext_Forall. eapply Forall_impl; [|exact Hall].
      intros x ->. reflexivity. }
  destruct Hcentred as [c [Hc ->]].
  assert (Hmul : forall r, signed_zero_or_nan (c * r)%float).
  { intros r. destruct Hc as [->| ->]; [apply mul_zero_l|].
    rewrite mul_nan_l. right. now right. }
  apply div_signed_zero_or_nan.
  - apply sum_signed_zero_or_nan. unfold np.mul_column_row.
    apply Forall_flat_map, Forall_map, Forall_forall. intros x _.
    apply Forall_map, Forall_forall. intros r _. apply Hmul.
  - apply sum_signed_zero_or_nan. rewrite map_map.
    apply Forall_map, Forall_forall. intros x _. apply Hmul.
Qed.

Lemma Series_min_one_day (dates : list date) (d0 : date) :
  dates <> [] -> Forall (fun d => d = d0) dates ->
  pd.Series_min dates = Some d0.
Proof.
  intros Hne Hall. destruct Hall as [|d dates -> Hall]; [congruence|].
  cbn [pd.Series_min]. f_equal. clear Hne.
  induction Hall as [|d dates -> _ IH]; [reflexivity|].
  cbn [fold_left]. rewrite Z.min_id. exact IH.
Qed.

(** On five rows or more that all carry one date, the advanced strategy runs
    the regression and every value it returns is NaN. *)
Lemma advanced_nan_on_one_day (env : Env) (params : ForecastParameters)
    (df : pd.DataFrame) (d0 : date) :
  too_small df = false ->
  Forall (fun d => d = d0) (pd.col_date df) ->
  exists response,
    fst (_generate_advanced_forecast env params df) = inr [response]
    /\ Forall (fun p => value p = PrimFloat.nan) (data_points response).
Proof.
  intros Hsize Hall.
  assert (Hne : pd.col_date df <> []).
  { apply too_small_not_empty in Hsize. unfold pd.empty, pd.col_date in *.
    destruct (pd.rows df); [discriminate|discriminate]. }
  rewrite (advanced_run env params df d0 Hsize
             (Series_min_one_day _ d0 Hne Hall)).
  eexists. split; [reflexivity|]. cbn [advanced_response data_points].
  apply Forall_map, Forall_forall. intros d _.
  unfold advanced_point. cbn [value]. unfold fit_intercept.
  rewrite fit_slope_zero_offsets.
  - rewrite !mul_nan_l. apply add_nan_r.
  - destruct (pd.col_date df); [congruence|discriminate].
  - apply Forall_map. eapply Forall_impl; [|exact Hall].
    intros d' ->. apply Z.sub_diag.
Qed.

(** ** The claims *)

(** C1. For parameters with [end_date >= start_date], each of the three
    strategies returns one response whose [data_points] has
    [(end_date - start_date).days + 1] entries, the i-th dated
    [start_date + i] days; a request for a single day has one point. *)
Theorem C1_one_point_per_day (env : Env) (params : ForecastParameters)
    (df : pd.DataFrame) :
  start_date params <= end_date params ->
  covers_range params (_generate_basic_forecast env params df)
  /\ covers_range params (_generate_advanced_forecast env params df)
  /\ covers_range params (_generate_predictive_forecast env params df).
Proof.
  intros Hle.
  assert (Hbasic : covers_range params (_generate_basic_forecast env params df)).
  { rewrite basic_run. now apply (covers_range_map params (basic_point df)). }
  assert (Hadvanced :
            covers_range params (_generate_advanced_forecast env params df)).
  { destruct (advanced_cases env params df)
      as [[_ Hrun]|[_ [date_min [_ Hrun]]]]; rewrite Hrun.
    - now apply (covers_range_map params (basic_point df)).
    - eapply covers_range_map; [|reflexivity|exact Hle]. reflexivity. }
  repeat split; assumption.
Qed.

Lemma C1_one_point_per_day_witness :
  start_date (Examples.request "advanced" None)
  <= end_date (Examples.request "advanced" None)
  /\ covers_range (Examples.request "advanced" None)
       (_generate_advanced_forecast Examples.env
          (Examples.request "advanced" None) Examples.history_daily).
Proof.
  split; [cbn; lia|].
  apply (C1_one_point_per_day Examples.env (Examples.request "advanced" None)
           Examples.history_daily).
  cbn; lia.
Defined.

(** C5. On a history of fewer than five points, the empty one included, the
    advanced strategy returns what the basic strategy returns on the same
    history and parameters, and it raises nothing. *)
Theorem C5_advanced_falls_back_to_basic (env : Env)
    (params : ForecastParameters) (df : pd.DataFrame) :
  (length (pd.rows df) < 5)%nat ->
  _generate_advanced_forecast env params df
  = _generate_basic_forecast env params df
  /\ exists response,
       fst (_generate_advanced_forecast env params df) = inr [response].
Proof.
  intros Hfew.
  assert (Hsmall : too_small df = true).
  { unfold too_small, pd.len. apply orb_true_iff. right.
    apply Z.ltb_lt. lia. }
  rewrite advanced_run_small by exact Hsmall. split; [reflexivity|].
  rewrite basic_run. eexists. reflexivity.
Qed.

Lemma C5_advanced_falls_back_to_basic_witness :
  (length (pd.rows Examples.history_short) < 5)%nat
  /\ _generate_advanced_forecast Examples.env
       (Examples.request "advanced" (Some 0.95%float)) Examples.history_short
     = _generate_basic_forecast Examples.env
         (Examples.request "advanced" (Some 0.95%float)) Examples.history_short.
Proof.
  split; [cbn; lia|].
  apply (C5_advanced_falls_back_to_basic Examples.env
           (Examples.request "advanced" (Some 0.95%float))
           Examples.history_short).
  cbn; lia.
Defined.

(** C7. On an empty history the basic strategy returns a response in which
    every data point has the value [0.0] exactly and neither confidence
    bound. *)
Theorem C7_basic_zero_on_empty_history (env : Env)
    (params : ForecastParameters) (df : pd.DataFrame) :
  pd.empty df = true ->
  exists response,
    fst (_generate_basic_forecast env params df) = inr [response]
    /\ length (data_points response)
       = length (pd.date_range (start_date params) (end_date params))
    /\ Forall (fun p => value p = 0%float
                        /\ confidence_lower p = None
                        /\ confidence_upper p = None)
              (data_points response).
Proof.
  intros Hempty. rewrite basic_run. eexists. split; [reflexivity|].
  cbn [basic_response data_points]. split; [apply length_map|].
  apply Forall_map, Forall_forall. intros d _.
  unfold basic_point, basic_value. rewrite Hempty. cbn. tauto.
Qed.

Lemma C7_basic_zero_on_empty_history_witness :
  pd.empty Examples.history_empty = true
  /\ exists response,
       fst (_generate_basic_forecast Examples.env
              (Examples.request "basic" None) Examples.history_empty)
       = inr [response]
       /\ length (data_points response) = 3%nat
       /\ Forall (fun p => value p = 0%float
                           /\ confidence_lower p = None
                           /\ confidence_upper p = None)
                 (data_points response).
Proof.
  split; [reflexivity|].
  apply (C7_basic_zero_on_empty_history Examples.env
           (Examples.request "basic" None) Examples.history_empty).
  reflexivity.
Defined.




(** ** Determinism and the frame *)

Lemma deterministic_basic : deterministic _generate_basic_forecast.
Proof.
  intros env1 env2 params df. rewrite !basic_run. cbn [snd].
  rewrite ?basic_run. unfold points_of. cbn. eauto.
Qed.

Lemma deterministic_advanced : deterministic _generate_advanced_forecast.
Proof.
  intros env1 env2 params df.
  destruct (too_small df) eqn:Hsize.
  - rewrite (advanced_run_small env1 params df Hsize).
    rewrite (advanced_run_small env2 params df Hsize).
    rewrite !basic_run. cbn [snd].
    rewrite (advanced_run_small env2 params df Hsize), basic_run.
    unfold points_of. cbn. eauto.
  - destruct (Series_min_rows df (too_small_not_empty df Hsize)) as [m Hm].
    rewrite (advanced_run env1 params df m Hsize Hm).
    rewrite (advanced_run env2 params df m Hsize Hm). cbn [snd].
    set (df' := pd.set_days _ df).
    rewrite (advanced_run env2 params df' m Hsize Hm).
    unfold points_of. cbn. eauto.
Qed.

Lemma deterministic_by_type : deterministic generate_by_type.
Proof.
  intros env1 env2 params df. unfold generate_by_type.
  destruct (String.eqb (forecast_type params) ForecastType.BASIC);
    [apply deterministic_basic|].
  destruct (String.eqb (forecast_type params) ForecastType.ADVANCED);
    [apply deterministic_advanced|].
  destruct (String.eqb (forecast_type params) ForecastType.PREDICTIVE);
    [apply deterministic_advanced|apply deterministic_basic].
Qed.

(** C9. The data points are a function of the history and the parameters:
    two calls with the same history and parameters return equal [data_points]
    (dates, values, bounds and flags), whatever the clock and the identifier
    of each call, which only [id] and [created_at] record. *)
Theorem C9_data_points_deterministic :
  deterministic _generate_basic_forecast
  /\ deterministic _generate_advanced_forecast
  /\ deterministic _generate_predictive_forecast
  /\ deterministic generate_by_type.
Proof.
  split; [exact deterministic_basic|].
  split; [exact deterministic_advanced|].
  split; [exact deterministic_advanced|exact deterministic_by_type].
Qed.

Lemma ignores_include_historical_basic :
  ignores_include_historical _generate_basic_forecast.
Proof.
  intros env params df b. rewrite !basic_run. split; [reflexivity|].
  eexists. split; [reflexivity|]. cbn [basic_response data_points].
  split.
  - apply Forall_map, Forall_forall. reflexivity.
  - rewrite map_map. apply map_id.
Qed.

Lemma ignores_include_historical_advanced :
  ignores_include_historical _generate_advanced_forecast.
Proof.
  intros env params df b.
  destruct (too_small df) eqn:Hsize.
  - rewrite !advanced_run_small by exact Hsize.
    apply ignores_include_historical_basic.
  - destruct (Series_min_rows df (too_small_not_empty df Hsize)) as [m Hm].
    rewrite !(advanced_run _ _ df m Hsize Hm). split; [reflexivity|].
    eexists. split; [reflexivity|]. cbn [advanced_response data_points].
    split.
    + apply Forall_map, Forall_forall. reflexivity.
    + rewrite map_map. apply map_id.
Qed.

(** C10. Whatever the flag [include_historical], every data point returned has
    [is_actual == False] and no historical point is part of the output: the
    points are those of the requested days, and the flag changes nothing. *)
Theorem C10_include_historical_ignored :
  ignores_include_historical _generate_basic_forecast
  /\ ignores_include_historical _generate_advanced_forecast
  /\ ignores_include_historical _generate_predictive_forecast
  /\ ignores_include_historical generate_by_type.
Proof.
  split; [exact ignores_include_historical_basic|].
  split; [exact ignores_include_historical_advanced|].
  split; [exact ignores_include_historical_advanced|].
  intros env params df b. unfold generate_by_type.
  cbn [with_include_historical forecast_type].
  destruct (String.eqb (forecast_type params) ForecastType.BASIC);
    [apply ignores_include_historical_basic|].
  destruct (String.eqb (forecast_type params) ForecastType.ADVANCED);
    [apply ignores_include_historical_advanced|].
  destruct (String.eqb (forecast_type params) ForecastType.PREDICTIVE);
    [apply ignores_include_historical_advanced
    |apply ignores_include_historical_basic].
Qed.

(** C6, as the code has it. The basic strategy, and the advanced and
    predictive strategies on a history of fewer than five rows, leave the
    supplied frame as it was. On five rows or more the advanced and predictive
    strategies keep the rows (the records, their fields and their order) and
    set the column ['days'] of the supplied frame to the offset of each row
    from the earliest date. *)
Theorem C6_history_after_forecast (env : Env) (params : ForecastParameters)
    (df : pd.DataFrame) :
  snd (_generate_basic_forecast env params df) = df
  /\ snd (_generate_advanced_forecast env params df)
     = (if too_small df then df else pd.set_days (days_since_min df) df)
  /\ snd (_generate_predictive_forecast env params df)
     = (if too_small df then df else pd.set_days (days_since_min df) df)
  /\ pd.rows (snd (_generate_advanced_forecast env params df)) = pd.rows df.
Proof.
  assert (Hadvanced :
            snd (_generate_advanced_forecast env params df)
            = (if too_small df then df
               else pd.set_days (days_since_min df) df)).
  { destruct (advanced_cases env params df)
      as [[Hsize Hrun]|[Hsize [date_min [Hmin Hrun]]]];
      rewrite Hrun, Hsize; [reflexivity|].
    unfold days_since_min. rewrite Hmin. reflexivity. }
  split; [now rewrite basic_run|].
  split; [exact Hadvanced|]. split; [exact Hadvanced|].
  rewrite Hadvanced. now destruct (too_small df).
Qed.

(** C6, as the claim has it, fails: after an advanced forecast on five daily
    sales the frame has a column it did not have. *)
Lemma C6_advanced_writes_days_column :
  snd (_generate_advanced_forecast Examples.env
         (Examples.request "advanced" None) Examples.history_daily)
  = pd.set_days [0; 1; 2; 3; 4] Examples.history_daily
  /\ snd (_generate_advanced_forecast Examples.env
            (Examples.request "advanced" None) Examples.history_daily)
     <> Examples.history_daily.
Proof.
  split; [vm_compute; reflexivity|].
  intros Heq. apply (f_equal pd.days) in Heq. vm_compute in Heq.
  discriminate Heq.
Qed.

(** ** Confidence bounds of the advanced strategy *)

(** With no level, or a level that is false as a condition, no point of the
    regression has a bound. *)
Lemma advanced_no_bounds_when_falsy (env : Env) (params : ForecastParameters)
    (df : pd.DataFrame) :
  too_small df = false ->
  truthy (confidence_level params) = false ->
  exists response,
    fst (_generate_advanced_forecast env params df) = inr [response]
    /\ Forall (fun p => confidence_lower p = None /\ confidence_upper p = None)
              (data_points response).
Proof.
  intros Hsize Hlevel.
  destruct (Series_min_rows df (too_small_not_empty df Hsize)) as [m Hm].
  rewrite (advanced_run env params df m Hsize Hm).
  eexists. split; [reflexivity|]. cbn [advanced_response data_points].
  apply Forall_map, Forall_forall. intros d _.
  unfold advanced_point. rewrite Hlevel. cbn. split; reflexivity.
Qed.




(** C2 on five sales of one and the same day: the advanced strategy does not
    fall back to the basic one; the slope is [0 / 0] and every value and bound
    it returns is NaN, where the basic strategy returns the mean [3.0]. *)
Theorem C2_one_day_history_gives_nan :
  too_small Examples.history_one_day = false
  /\ pd.col_date Examples.history_one_day = [10; 10; 10; 10; 10]
  /\ fit_slope [0; 0; 0; 0; 0] (pd.col_value Examples.history_one_day)
     = PrimFloat.nan
  /\ points_of (_generate_advanced_forecast Examples.env
                  (Examples.request "advanced" (Some 0.95%float))
                  Examples.history_one_day)
     = inr [[ Examples.point 15 PrimFloat.nan (Some (PrimFloat.nan, PrimFloat.nan));
              Examples.point 16 PrimFloat.nan (Some (PrimFloat.nan, PrimFloat.nan));
              Examples.point 17 PrimFloat.nan (Some (PrimFloat.nan, PrimFloat.nan)) ]]
  /\ points_of (_generate_basic_forecast Examples.env
                  (Examples.request "advanced" (Some 0.95%float))
                  Examples.history_one_day)
     = inr [[ Examples.point 15 3%float None;
              Examples.point 16 3%float None;
              Examples.point 17 3%float None ]].
Proof.
  repeat split; vm_compute; reflexivity.
Qed.

(** C3 on the code: the constructor accepts every set of fields, an end
    before the start and a level outside [[0, 1]] included; such parameters
    reach the engine, which answers an empty range with a response without
    data points. *)
Theorem C3_constructor_accepts_everything :
  (forall start end_ rep cat type flag level,
      exists params,
        ForecastParameters_init start end_ rep cat type flag level = inr params
        /\ start_date params = start
        /\ end_date params = end_
        /\ confidence_level params = level)
  /\ (exists params,
        ForecastParameters_init 15 14 None None None None None = inr params
        /\ end_date params < start_date params
        /\ points_of (generate_by_type Examples.env params
                        Examples.history_daily)
           = inr [[]])
  /\ (exists params,
        ForecastParameters_init 15 17 None None (Some "advanced"%string) None
          (Some 1.5%float) = inr params
        /\ (1 <? 1.5)%float = true
        /\ exists points,
             points_of (generate_by_type Examples.env params
                          Examples.history_daily)
             = inr [points]
             /\ length points = 3%nat)
  /\ (exists params,
        ForecastParameters_init 15 17 None None None None
          (Some (-0.1)%float) = inr params
        /\ (-0.1 <? 0)%float = true).
Proof.
  split; [|split; [|split]].
  - intros. eexists. split; [reflexivity|]. cbn. tauto.
  - eexists. split; [reflexivity|]. split; [cbn; lia|]. vm_compute. reflexivity.
  - eexists. split; [reflexivity|]. split; [reflexivity|].
    eexists. split; [vm_compute; reflexivity|]. reflexivity.
  - eexists. split; [reflexivity|]. reflexivity.
Qed.

(** * Further properties of the engine and of its callers *)

(** ** The service methods *)

(** X1. The two entry points of the service add no handling of failures:
    a request that starts within 90 days of [date.min] (180 days for
    [generate_advanced_forecast]) fails with [OverflowError] before the
    sheets service is asked anything, whatever that service is; otherwise the
    service is asked for the 90 (180) days up to the eve of the start, and an
    exception it raises is raised unchanged. *)
Theorem service_raises_what_dates_and_fetch_raise
    (sheets_service : SheetsService) (env : Env)
    (params : ForecastParameters) (user : User) :
  1 <= start_date params <= 3652059 ->
  (start_date params <= 90 ->
   get_forecasts sheets_service env params user = inl OverflowError)
  /\ (start_date params <= 180 ->
      generate_advanced_forecast sheets_service env params user
      = inl OverflowError)
  /\ (forall e,
        90 < start_date params ->
        get_sales_data sheets_service
          (start_date params - 90) (start_date params - 1)
          (sales_rep_id params) (category params) = inl e ->
        get_forecasts sheets_service env params user = inl e)
  /\ (forall e,
        180 < start_date params ->
        get_sales_data sheets_service
          (start_date params - 180) (start_date params - 1)
          (sales_rep_id params) (category params) = inl e ->
        generate_advanced_forecast sheets_service env params user = inl e).
Proof.
  intros Hdate. unfold get_forecasts, generate_advanced_forecast, date_sub_days.
  repeat split.
  - intros Hnear.
    destruct (Z.leb_spec 1 (start_date params - 90)); [lia|reflexivity].
  - intros Hnear.
    destruct (Z.leb_spec 1 (start_date params - 180)); [lia|reflexivity].
  - intros e Hfar Hfetch.
    destruct (Z.leb_spec 1 (start_date params - 90)); [|lia].
    destruct (Z.leb_spec (start_date params - 90) 3652059); [|lia].
    destruct (Z.leb_spec 1 (start_date params - 1)); [|lia].
    destruct (Z.leb_spec (start_date params - 1) 3652059); [|lia].
    cbn [andb]. now rewrite Hfetch.
  - intros e Hfar Hfetch.
    destruct (Z.leb_spec 1 (start_date params - 180)); [|lia].
    destruct (Z.leb_spec (start_date params - 180) 3652059); [|lia].
    destruct (Z.leb_spec 1 (start_date params - 1)); [|lia].
    destruct (Z.leb_spec (start_date params - 1) 3652059); [|lia].
    cbn [andb]. now rewrite Hfetch.
Qed.

Lemma service_raises_what_dates_and_fetch_raise_witness :
  (1 <= start_date (Examples.request "basic" None) <= 3652059
   /\ get_forecasts
        {| get_sales_data := fun _ _ _ _ => inr Examples.history_daily |}
        Examples.env (Examples.request "basic" None)
        (mkUser 1 "user@example.com" None true "viewer" false)
      = inl OverflowError)
  /\ generate_advanced_forecast
       {| get_sales_data :=
            fun _ _ _ _ => inl (HTTPException 500 "sheet not reachable") |}
       Examples.env
       (mkForecastParameters 739452 739454 None None "advanced" false None)
       (mkUser 1 "user@example.com" None true "viewer" false)
     = inl (HTTPException 500 "sheet not reachable").
Proof.
  split.
  - split; [cbn; lia|].
    refine (proj1 (service_raises_what_dates_and_fetch_raise
                     {| get_sales_data :=
                          fun _ _ _ _ => inr Examples.history_daily |}
                     Examples.env (Examples.request "basic" None)
                     (mkUser 1 "user@example.com" None true "viewer" false)
                     _) _);
      cbn; lia.
  - refine (proj2 (proj2 (proj2
              (service_raises_what_dates_and_fetch_raise
                 {| get_sales_data :=
                      fun _ _ _ _ =>
                        inl (HTTPException 500 "sheet not reachable") |}
                 Examples.env
                 (mkForecastParameters 739452 739454 None None "advanced"
                    false None)
                 (mkUser 1 "user@example.com" None true "viewer" false)
                 _))) _ _ _);
      [cbn; lia|cbn; lia|reflexivity].
Defined.

(** ** What the data points depend on *)

Lemma advanced_point_level (date_min : date) (X : list Z) (y : list float)
    (level1 level2 : option float) (d : date) :
  truthy level1 = truthy level2 ->
  advanced_point date_min X y level1 d = advanced_point date_min X y level2 d.
Proof.
  intros Hlevel. unfold advanced_point. now rewrite Hlevel.
Qed.

(** X3. The data points of the advanced strategy depend on the parameters
    only through the range and through whether [confidence_level] is true as
    a condition: the number given as the level (0.5 or 0.99), the filters,
    the type and the flag change nothing, nor does the environment. *)
Theorem advanced_points_depend_on_range_and_level_truth
    (env1 env2 : Env) (params1 params2 : ForecastParameters)
    (df : pd.DataFrame) :
  start_date params1 = start_date params2 ->
  end_date params1 = end_date params2 ->
  truthy (confidence_level params1) = truthy (confidence_level params2) ->
  points_of (_generate_advanced_forecast env1 params1 df)
  = points_of (_generate_advanced_forecast env2 params2 df).
Proof.
  intros Hstart Hend Hlevel.
  destruct (too_small df) eqn:Hsize.
  - rewrite !advanced_run_small by exact Hsize. rewrite !basic_run.
    unfold points_of. cbn. now rewrite Hstart, Hend.
  - destruct (Series_min_rows df (too_small_not_empty df Hsize)) as [m Hm].
    rewrite !(advanced_run _ _ df m Hsize Hm).
    unfold points_of. cbn. rewrite Hstart, Hend. do 2 f_equal.
    apply map_ext. intros d. now apply advanced_point_level.
Qed.

Lemma advanced_points_depend_on_range_and_level_truth_witness :
  truthy (Some 0.5%float) = truthy (Some 0.99%float)
  /\ points_of (_generate_advanced_forecast Examples.env
                  (Examples.request "advanced" (Some 0.5%float))
                  Examples.history_daily)
     = points_of (_generate_advanced_forecast Examples.env
                    (Examples.request "basic" (Some 0.99%float))
                    Examples.history_daily).
Proof.
  split; [reflexivity|].
  apply (advanced_points_depend_on_range_and_level_truth
           Examples.env Examples.env
           (Examples.request "advanced" (Some 0.5%float))
           (Examples.request "basic" (Some 0.99%float))
           Examples.history_daily); reflexivity.
Defined.

(** X4. The entry point [generate_advanced_forecast] does not look at
    [forecast_type]: it fetches the same history and returns the same data
    points whatever the type of the request, ["basic"] included. *)
Theorem generate_advanced_forecast_ignores_type
    (sheets_service : SheetsService) (env : Env)
    (params : ForecastParameters) (user : User) (t : string) :
  response_points
    (generate_advanced_forecast sheets_service env
       (with_forecast_type t params) user)
  = response_points
      (generate_advanced_forecast sheets_service env params user).
Proof.
  unfold generate_advanced_forecast. cbn [with_forecast_type start_date
    sales_rep_id category].
  destruct (date_sub_days (start_date params) 180) as [e|history_start];
    [reflexivity|].
  destruct (date_sub_days (start_date params) 1) as [e|history_end];
    [reflexivity|].
  destruct (get_sales_data sheets_service _ _ _ _) as [e|df]; [reflexivity|].
  unfold response_points. destruct (too_small df) eqn:Hsize.
  - rewrite !advanced_run_small by exact Hsize. rewrite !basic_run.
    reflexivity.
  - destruct (Series_min_rows df (too_small_not_empty df Hsize)) as [m Hm].
    rewrite !(advanced_run _ _ df m Hsize Hm). reflexivity.
Qed.

(** ** Edge of the range *)

Lemma date_range_reversed (start end_ : date) :
  end_ < start -> pd.date_range start end_ = [].
Proof.
  intros Hlt. unfold pd.date_range.
  replace (Z.to_nat (end_ - start + 1)) with 0%nat by lia. reflexivity.
Qed.

(** X5. A range whose end is before its start is not an error: each strategy
    returns one response without any data point, whose metadata counts zero
    points. *)
Theorem reversed_range_gives_no_points (env : Env)
    (params : ForecastParameters) (df : pd.DataFrame) :
  end_date params < start_date params ->
  (exists response,
      fst (_generate_basic_forecast env params df) = inr [response]
      /\ data_points response = []
      /\ metadata_get "data_points_count" (metadata response) = Some (SInt 0))
  /\ (exists response,
        fst (_generate_advanced_forecast env params df) = inr [response]
        /\ data_points response = []
        /\ metadata_get "data_points_count" (metadata response)
           = Some (SInt 0)).
Proof.
  intros Hlt.
  assert (Hbasic :
            exists response,
              fst (_generate_basic_forecast env params df) = inr [response]
              /\ data_points response = []
              /\ metadata_get "data_points_count" (metadata response)
                 = Some (SInt 0)).
  { rewrite basic_run. eexists. split; [reflexivity|].
    unfold basic_response. rewrite date_range_reversed by exact Hlt.
    split; reflexivity. }
  split; [exact Hbasic|].
  destruct (advanced_cases env params df)
    as [[_ Hrun]|[_ [date_min [_ Hrun]]]]; rewrite Hrun.
  - rewrite <- basic_run. exact Hbasic.
  - eexists. split; [reflexivity|].
    unfold advanced_response. rewrite date_range_reversed by exact Hlt.
    split; reflexivity.
Qed.

Lemma reversed_range_gives_no_points_witness :
  end_date (mkForecastParameters 15 14 None None "advanced" false None)
  < start_date (mkForecastParameters 15 14 None None "advanced" false None)
  /\ exists response,
       fst (_generate_advanced_forecast Examples.env
              (mkForecastParameters 15 14 None None "advanced" false None)
              Examples.history_daily)
       = inr [response]
       /\ data_points response = []
       /\ metadata_get "data_points_count" (metadata response) = Some (SInt 0).
Proof.
  split; [cbn; lia|].
  apply (reversed_range_gives_no_points Examples.env
           (mkForecastParameters 15 14 None None "advanced" false None)
           Examples.history_daily).
  cbn; lia.
Defined.

(** ** The metadata of a response *)

(** X6. The metadata of the advanced strategy tell which model produced the
    points: ["simple_moving_average"] when it fell back to the basic
    strategy, ["linear_regression"] on five rows or more; in both cases
    ["data_points_count"] is the number of data points and [parameters] is
    the request. *)
Theorem advanced_metadata_names_the_model (env : Env)
    (params : ForecastParameters) (df : pd.DataFrame) :
  exists response,
    fst (_generate_advanced_forecast env params df) = inr [response]
    /\ parameters response = params
    /\ metadata_get "model_type" (metadata response)
       = Some (SStr (if too_small df then "simple_moving_average"
                     else "linear_regression"))
    /\ metadata_get "data_points_count" (metadata response)
       = Some (SInt (Z.of_nat (length (data_points response)))).
Proof.
  destruct (advanced_cases env params df)
    as [[Hsize Hrun]|[Hsize [date_min [_ Hrun]]]];
    rewrite Hrun, Hsize; eexists; (split; [reflexivity|]);
    repeat split.
Qed.

(** X7. On five rows or more, the line is in the metadata: every value
    returned is [intercept + slope * days], for the [slope] and [intercept]
    of the metadata and the number of days from the earliest historical date
    to the date of the point. *)
Theorem advanced_values_follow_metadata_line (env : Env)
    (params : ForecastParameters) (df : pd.DataFrame) :
  (5 <= length (pd.rows df))%nat ->
  exists response slope intercept date_min,
    fst (_generate_advanced_forecast env params df) = inr [response]
    /\ metadata_get "slope" (metadata response) = Some (SFloat slope)
    /\ metadata_get "intercept" (metadata response) = Some (SFloat intercept)
    /\ pd.Series_min (pd.col_date df) = Some date_min
    /\ Forall
         (fun p =>
            value p
            = (intercept + slope * np.float_of_Z (point_date p - date_min))%float)
         (data_points response).
Proof.
  intros Hrows.
  assert (Hsize : too_small df = false).
  { unfold too_small, pd.empty, pd.len. apply orb_false_iff. split.
    - destruct (pd.rows df); [cbn in Hrows; lia|reflexivity].
    - apply Z.ltb_ge. lia. }
  destruct (Series_min_rows df (too_small_not_empty df Hsize)) as [m Hm].
  rewrite (advanced_run env params df m Hsize Hm).
  do 4 eexists. split; [reflexivity|].
  split; [reflexivity|]. split; [reflexivity|]. split; [exact Hm|].
  cbn [advanced_response data_points].
  apply Forall_map, Forall_forall. intros d _. reflexivity.
Qed.

Lemma advanced_values_follow_metadata_line_witness :
  (5 <= length (pd.rows Examples.history_daily))%nat
  /\ exists response slope intercept date_min,
       fst (_generate_advanced_forecast Examples.env
              (Examples.request "advanced" None) Examples.history_daily)
       = inr [response]
       /\ metadata_get "slope" (metadata response) = Some (SFloat slope)
       /\ metadata_get "intercept" (metadata response) = Some (SFloat intercept)
       /\ pd.Series_min (pd.col_date Examples.history_daily) = Some date_min
       /\ Forall
            (fun p =>
               value p
               = (intercept
                  + slope * np.float_of_Z (point_date p - date_min))%float)
            (data_points response).
Proof.
  split; [cbn; lia|].
  apply (advanced_values_follow_metadata_line Examples.env
           (Examples.request "advanced" None) Examples.history_daily).
  cbn; lia.
Defined.

(** ** The column written on the history *)

Lemma fold_min_le (l : list Z) :
  forall a, fold_left Z.min l a <= a
            /\ Forall (fun d => fold_left Z.min l a <= d) l.
Proof.
  induction l as [|x l IH]; intros a; [cbn; split; [lia|constructor]|].
  cbn [fold_left]. destruct (IH (Z.min a x)) as [Hle Hall].
  split; [lia|]. constructor; [lia|exact Hall].
Qed.

Lemma fold_min_in (l : list Z) :
  forall a, fold_left Z.min l a = a \/ In (fold_left Z.min l a) l.
Proof.
  induction l as [|x l IH]; intros a; [now left|].
  cbn [fold_left]. destruct (IH (Z.min a x)) as [Heq|Hin].
  - rewrite Heq. destruct (Z.min_spec a x) as [[_ ->]|[_ ->]];
      [now left|right; now left].
  - right. now right.
Qed.

(** X8. The offsets the advanced strategy writes in the column ['days'] of a
    history of five rows or more: one per row, none negative, and zero for a
    row of the earliest date. *)
Theorem days_column_counts_from_the_earliest_date (env : Env)
    (params : ForecastParameters) (df : pd.DataFrame) :
  (5 <= length (pd.rows df))%nat ->
  exists column,
    pd.days (snd (_generate_advanced_forecast env params df)) = Some column
    /\ length column = length (pd.rows df)
    /\ Forall (fun offset => 0 <= offset) column
    /\ In 0 column.
Proof.
  intros Hrows.
  assert (Hsize : too_small df = false).
  { unfold too_small, pd.empty, pd.len. apply orb_false_iff. split.
    - destruct (pd.rows df); [cbn in Hrows; lia|reflexivity].
    - apply Z.ltb_ge. lia. }
  destruct (Series_min_rows df (too_small_not_empty df Hsize)) as [m Hm].
  rewrite (advanced_run env params df m Hsize Hm). cbn [snd pd.set_days pd.days].
  eexists. split; [reflexivity|].
  unfold pd.col_date in *. rewrite !length_map. split; [reflexivity|].
  destruct (map pd.row_date (pd.rows df)) as [|d dates] eqn:Hdates;
    [discriminate Hm|].
  cbn [pd.Series_min] in Hm. injection Hm as <-.
  destruct (fold_min_le dates d) as [Hle Hall]. split.
  - apply Forall_map. constructor; [lia|].
    eapply Forall_impl; [|exact Hall]. cbn. intros; lia.
  - apply in_map_iff. exists (fold_left Z.min dates d).
    split; [lia|]. destruct (fold_min_in dates d) as [->|Hin];
      [now left|now right].
Qed.

Lemma days_column_counts_from_the_earliest_date_witness :
  (5 <= length (pd.rows Examples.history_daily))%nat
  /\ exists column,
       pd.days (snd (_generate_advanced_forecast Examples.env
                       (Examples.request "advanced" None)
                       Examples.history_daily))
       = Some column
       /\ length column = 5%nat
       /\ Forall (fun offset => 0 <= offset) column
       /\ In 0 column.
Proof.
  split; [cbn; lia|].
  apply (days_column_counts_from_the_earliest_date Examples.env
           (Examples.request "advanced" None) Examples.history_daily).
  cbn; lia.
Defined.

(** X9. A second forecast on the same frame writes what the first one wrote:
    after two calls of the advanced strategy, with any parameters, the
    history is as after the first call. *)
Theorem advanced_frame_effect_is_idempotent (env1 env2 : Env)
    (params1 params2 : ForecastParameters) (df : pd.DataFrame) :
  snd (_generate_advanced_forecast env2 params2
         (snd (_generate_advanced_forecast env1 params1 df)))
  = snd (_generate_advanced_forecast env1 params1 df).
Proof.
  destruct (advanced_cases env1 params1 df)
    as [[Hsize Hrun]|[Hsize [date_min [Hmin Hrun]]]]; rewrite Hrun; cbn [snd].
  - rewrite advanced_run_small by exact Hsize. now rewrite basic_run.
  - set (df' := pd.set_days _ df).
    now rewrite (advanced_run env2 params2 df' date_min Hsize Hmin).
Qed.

(** ** Moving the history and the request in time *)

Lemma date_range_shift (start end_ k : Z) :
  pd.date_range (start + k) (end_ + k)
  = map (fun d => d + k) (pd.date_range start end_).
Proof.
  unfold pd.date_range. rewrite map_map.
  replace (end_ + k - (start + k) + 1) with (end_ - start + 1) by lia.
  apply map_ext. intros i. lia.
Qed.

Lemma fold_min_shift (k : Z) (l : list Z) :
  forall a, fold_left Z.min (map (fun d => d + k) l) (a + k)
            = fold_left Z.min l a + k.
Proof.
  induction l as [|x l IH]; intros a; [reflexivity|].
  cbn [map fold_left]. rewrite <- IH. f_equal. lia.
Qed.

Lemma Series_min_shift (k : Z) (df : pd.DataFrame) (date_min : date) :
  pd.Series_min (pd.col_date df) = Some date_min ->
  pd.Series_min (pd.col_date (shift_frame k df)) = Some (date_min + k).
Proof.
  unfold pd.col_date, shift_frame. cbn [pd.rows]. rewrite map_map.
  cbn [shift_row pd.row_date].
  rewrite <- (map_map pd.row_date (fun d => d + k)).
  destruct (map pd.row_date (pd.rows df)) as [|d dates]; [discriminate|].
  cbn [pd.Series_min map]. intros Hmin. injection Hmin as <-.
  now rewrite fold_min_shift.
Qed.

Lemma shift_frame_values (k : Z) (df : pd.DataFrame) :
  pd.col_value (shift_frame k df) = pd.col_value df.
Proof.
  unfold pd.col_value, shift_frame. cbn [pd.rows]. rewrite map_map.
  reflexivity.
Qed.

Lemma shift_frame_offsets (k : Z) (df : pd.DataFrame) (date_min : date) :
  map (fun d => d - (date_min + k)) (pd.col_date (shift_frame k df))
  = map (fun d => d - date_min) (pd.col_date df).
Proof.
  unfold pd.col_date, shift_frame. cbn [pd.rows]. rewrite !map_map.
  apply map_ext. intros r. cbn. lia.
Qed.

Lemma shift_frame_too_small (k : Z) (df : pd.DataFrame) :
  too_small (shift_frame k df) = too_small df.
Proof.
  unfold too_small, pd.empty, pd.len, shift_frame. cbn [pd.rows].
  rewrite length_map. now destruct (pd.rows df).
Qed.

Lemma basic_value_shift (k : Z) (df : pd.DataFrame) :
  basic_value (shift_frame k df) = basic_value df.
Proof.
  unfold basic_value. rewrite shift_frame_values.
  unfold pd.empty, shift_frame. cbn [pd.rows]. now destruct (pd.rows df).
Qed.

(** X10. Forecasts depend on dates only through differences: with every sale
    and the requested range moved by the same number of days, both
    strategies return the same values and bounds, on dates moved by that
    number of days. *)
Theorem forecast_moves_with_the_calendar (env : Env)
    (params : ForecastParameters) (df : pd.DataFrame) (k : Z) :
  (exists response response',
      fst (_generate_basic_forecast env params df) = inr [response]
      /\ fst (_generate_basic_forecast env (shift_params k params)
                (shift_frame k df)) = inr [response']
      /\ data_points response' = map (shift_point k) (data_points response))
  /\ (exists response response',
        fst (_generate_advanced_forecast env params df) = inr [response]
        /\ fst (_generate_advanced_forecast env (shift_params k params)
                  (shift_frame k df)) = inr [response']
        /\ data_points response'
           = map (shift_point k) (data_points response)).
Proof.
  assert (Hbasic :
            data_points (basic_response env (shift_params k params)
                           (shift_frame k df))
            = map (shift_point k) (data_points (basic_response env params df))).
  { cbn [basic_response data_points shift_params start_date end_date].
    rewrite date_range_shift, !map_map. apply map_ext. intros d.
    unfold basic_point, shift_point.
    cbn [point_date value confidence_lower confidence_upper is_actual].
    now rewrite basic_value_shift. }
  split.
  - rewrite !basic_run. do 2 eexists.
    split; [reflexivity|]. split; [reflexivity|exact Hbasic].
  - destruct (too_small df) eqn:Hsize.
    + rewrite !advanced_run_small
        by (rewrite ?shift_frame_too_small; exact Hsize).
      rewrite !basic_run. do 2 eexists.
      split; [reflexivity|]. split; [reflexivity|exact Hbasic].
    + destruct (Series_min_rows df (too_small_not_empty df Hsize)) as [m Hm].
      rewrite (advanced_run env params df m Hsize Hm).
      rewrite (advanced_run env (shift_params k params) (shift_frame k df)
                 (m + k)); [|now rewrite shift_frame_too_small
                            |now apply Series_min_shift].
      do 2 eexists. split; [reflexivity|]. split; [reflexivity|].
      cbn [advanced_response data_points shift_params start_date end_date
           confidence_level].
      rewrite date_range_shift, !map_map. apply map_ext. intros d.
      rewrite shift_frame_offsets, shift_frame_values.
      unfold advanced_point, shift_point.
      cbn [point_date value confidence_lower confidence_upper is_actual].
      replace (d + k - (m + k)) with (d - m) by lia. reflexivity.
Qed.

(** ** The records made of the rows of the sheet *)

Section SheetRecords.

Import Sheets.

Lemma dict_set_fresh (key v : string) (d : Dict) :
  ~ In key (map fst d) -> dict_set key v d = (d ++ [(key, v)])%list.
Proof.
  induction d as [|[k w] d IH]; intros Hfresh; [reflexivity|].
  cbn [dict_set]. destruct (String.eqb_spec key k) as [->|Hneq].
  - exfalso. apply Hfresh. now left.
  - cbn [app]. f_equal. apply IH. intros Hin. apply Hfresh. now right.
Qed.

Lemma fold_dict_set_nodup (pairs acc : list (string * string)) :
  NoDup (map fst (acc ++ pairs)) ->
  fold_left (fun d kv => dict_set (fst kv) (snd kv) d) pairs acc
  = (acc ++ pairs)%list.
Proof.
  revert acc. induction pairs as [|[k v] pairs IH]; intros acc Hnodup.
  - now rewrite app_nil_r.
  - cbn [fold_left fst snd].
    replace (acc ++ (k, v) :: pairs)%list
      with ((acc ++ [(k, v)]) ++ pairs)%list in *
      by now rewrite <- app_assoc.
    rewrite dict_set_fresh.
    + now apply IH.
    + rewrite !map_app in Hnodup. apply NoDup_app_remove_r in Hnodup.
      cbn in Hnodup. apply NoDup_remove_2 in Hnodup.
      now rewrite app_nil_r in Hnodup.
Qed.

Lemma dict_of_nodup (pairs : list (string * string)) :
  NoDup (map fst pairs) -> dict_of pairs = pairs.
Proof.
  intros Hnodup. unfold dict_of. now rewrite fold_dict_set_nodup.
Qed.

Lemma pad_row_length (headers row : list string) :
  (length headers <= length (pad_row headers row))%nat.
Proof.
  unfold pad_row. rewrite length_app, repeat_length. lia.
Qed.

Lemma pad_row_nth (headers row : list string) (i : nat) :
  nth i (pad_row headers row) EmptyString = nth i row EmptyString.
Proof.
  unfold pad_row. destruct (Nat.lt_ge_cases i (length row)) as [Hlt|Hge].
  - now rewrite app_nth1.
  - rewrite app_nth2 by exact Hge. rewrite nth_repeat.
    now rewrite nth_overflow.
Qed.

Lemma combine_keys (keys vals : list string) :
  (length keys <= length vals)%nat -> map fst (combine keys vals) = keys.
Proof.
  revert vals. induction keys as [|k keys IH]; intros vals Hlen;
    [reflexivity|].
  destruct vals as [|v vals]; [cbn in Hlen; lia|].
  cbn. f_equal. apply IH. cbn in Hlen. lia.
Qed.

Lemma combine_values (keys vals : list string) (i : nat) :
  (i < length keys)%nat ->
  nth i (map snd (combine keys vals)) EmptyString = nth i vals EmptyString.
Proof.
  revert vals i. induction keys as [|k keys IH]; intros vals i Hlt;
    [cbn in Hlt; lia|].
  destruct vals as [|v vals]; [now destruct i|].
  destruct i as [|i]; [reflexivity|].
  cbn. apply IH. cbn in Hlt. lia.
Qed.

(** X13. With header cells that are all different, [_fetch_sheet_data]
    makes one record per row under the header row, in order; the keys of a
    record are the headers, and under the i-th header stands the i-th cell
    of the row, or the empty string when the row is too short. Cells beyond
    the headers are dropped. *)
Theorem fetch_records_follow_the_headers (response : Response)
    (headers : list string) (data_rows : list (list string)) :
  status_code response = 200 ->
  json response = inr (Some (headers :: data_rows)) ->
  NoDup headers ->
  exists records,
    _fetch_sheet_data (inr response) = inr records
    /\ Forall2
         (fun row record =>
            map fst record = headers
            /\ forall i, (i < length headers)%nat ->
                 nth i (map snd record) EmptyString = nth i row EmptyString)
         data_rows records.
Proof.
  intros Hstatus Hjson Hnodup. unfold _fetch_sheet_data.
  rewrite Hstatus, Hjson. cbn [Z.eqb Pos.eqb negb].
  eexists. split; [reflexivity|]. clear Hjson.
  induction data_rows as [|row data_rows IH]; [constructor|].
  cbn [map]. constructor; [|exact IH].
  rewrite dict_of_nodup
    by (rewrite combine_keys; [exact Hnodup|apply pad_row_length]).
  split; [apply combine_keys, pad_row_length|].
  intros i Hlt. rewrite combine_values by exact Hlt. apply pad_row_nth.
Qed.

Lemma fetch_records_follow_the_headers_witness :
  exists records,
    _fetch_sheet_data
      (inr (mkResponse 200 "ok"
              (inr (Some [ ["date"; "value"; "category"];
                           ["2025-05-01"; "120"];
                           ["2025-05-02"; "80"; "smb"; "extra"] ]%string))))
    = inr records
    /\ Forall2
         (fun row record =>
            map fst record = ["date"; "value"; "category"]%string
            /\ forall i, (i < 3)%nat ->
                 nth i (map snd record) EmptyString = nth i row EmptyString)
         [ ["2025-05-01"; "120"];
           ["2025-05-02"; "80"; "smb"; "extra"] ]%string
         records.
Proof.
  apply (fetch_records_follow_the_headers
           (mkResponse 200 "ok"
              (inr (Some [ ["date"; "value"; "category"];
                           ["2025-05-01"; "120"];
                           ["2025-05-02"; "80"; "smb"; "extra"] ]%string)))
           ["date"; "value"; "category"]%string
           [ ["2025-05-01"; "120"];
             ["2025-05-02"; "80"; "smb"; "extra"] ]%string).
  - reflexivity.
  - reflexivity.
  - repeat constructor; cbn; intuition discriminate.
Defined.

End SheetRecords.

(** ** Repeated headers *)

Lemma dict_get_set (key k v : string) (d : Sheets.Dict) :
  Sheets.dict_get key (Sheets.dict_set k v d)
  = if String.eqb key k then Some v else Sheets.dict_get key d.
Proof.
  induction d as [|[k' w] d IH]; cbn [Sheets.dict_set Sheets.dict_get].
  - reflexivity.
  - destruct (String.eqb_spec k k') as [->|Hneq];
      cbn [Sheets.dict_get].
    + now destruct (String.eqb key k').
    + destruct (String.eqb_spec key k') as [->|Hneq'].
      * destruct (String.eqb_spec k' k) as [->|_]; [congruence|reflexivity].
      * exact IH.
Qed.

Lemma dict_set_keys (k v : string) (d : Sheets.Dict) :
  NoDup (map fst d) -> NoDup (map fst (Sheets.dict_set k v d)).
Proof.
  intros Hnodup.
  destruct (in_dec string_dec k (map fst d)) as [Hin|Hfresh].
  - replace (map fst (Sheets.dict_set k v d)) with (map fst d); [exact Hnodup|].
    clear Hnodup. induction d as [|[k' w] d IH]; [destruct Hin|].
    cbn [Sheets.dict_set]. destruct (String.eqb_spec k k') as [->|Hneq];
      [reflexivity|].
    cbn [map fst]. f_equal. apply IH. destruct Hin as [Heq|Hin];
      [cbn in Heq; congruence|exact Hin].
  - rewrite dict_set_fresh by exact Hfresh. rewrite map_app. cbn [map fst].
    apply NoDup_app; [exact Hnodup|repeat constructor; intros []|].
    intros x Hx [<-|[]]. contradiction.
Qed.

Lemma fold_dict_set_get (key : string) (pairs : list (string * string)) :
  forall acc,
    Sheets.dict_get key
      (fold_left (fun d kv => Sheets.dict_set (fst kv) (snd kv) d) pairs acc)
    = match Sheets.dict_get key (rev pairs) with
      | Some v => Some v
      | None => Sheets.dict_get key acc
      end.
Proof.
  induction pairs as [|[k v] pairs IH]; intros acc; [reflexivity|].
  cbn [fold_left fst snd rev]. rewrite IH, dict_get_set.
  clear IH. induction (rev pairs) as [|[k' w] l IHl].
  - cbn. now destruct (String.eqb key k).
  - cbn [app Sheets.dict_get]. now destruct (String.eqb key k').
Qed.

Lemma fold_dict_set_keys (pairs : list (string * string)) :
  forall acc,
    NoDup (map fst acc) ->
    NoDup (map fst
             (fold_left (fun d kv => Sheets.dict_set (fst kv) (snd kv) d)
                        pairs acc)).
Proof.
  induction pairs as [|[k v] pairs IH]; intros acc Hnodup; [exact Hnodup|].
  cbn [fold_left]. apply IH, dict_set_keys, Hnodup.
Qed.

(** X14. Whatever the header row, also with a header that occurs twice, no
    key occurs twice in a record, and the value under a header is the cell
    of the last column that carries this header: looking a key up in the
    record is looking it up in the columns read from right to left. *)
Theorem fetch_record_keeps_the_last_column (response : Sheets.Response)
    (headers : list string) (data_rows : list (list string)) :
  Sheets.status_code response = 200 ->
  Sheets.json response = inr (Some (headers :: data_rows)) ->
  exists records,
    Sheets._fetch_sheet_data (inr response) = inr records
    /\ Forall2
         (fun row record =>
            NoDup (map fst record)
            /\ forall key,
                 Sheets.dict_get key record
                 = Sheets.dict_get key
                     (rev (combine headers (Sheets.pad_row headers row))))
         data_rows records.
Proof.
  intros Hstatus Hjson. unfold Sheets._fetch_sheet_data.
  rewrite Hstatus, Hjson. cbn [Z.eqb Pos.eqb negb].
  eexists. split; [reflexivity|]. clear Hjson.
  induction data_rows as [|row data_rows IH]; [constructor|].
  cbn [map]. constructor; [|exact IH]. unfold Sheets.dict_of. split.
  - apply fold_dict_set_keys. constructor.
  - intros key. rewrite fold_dict_set_get.
    now destruct (Sheets.dict_get key (rev _)).
Qed.

Lemma fetch_record_keeps_the_last_column_witness :
  exists records,
    Sheets._fetch_sheet_data
      (inr (Sheets.mkResponse 200 "ok"
              (inr (Some [ ["date"; "value"; "value"];
                           ["2025-05-01"; "120"; "95"] ]%string))))
    = inr records
    /\ Forall2
         (fun row record =>
            NoDup (map fst record)
            /\ forall key,
                 Sheets.dict_get key record
                 = Sheets.dict_get key
                     (rev (combine ["date"; "value"; "value"]%string
                             (Sheets.pad_row ["date"; "value"; "value"]%string
                                row))))
         [ ["2025-05-01"; "120"; "95"] ]%string records.
Proof.
  apply (fetch_record_keeps_the_last_column
           (Sheets.mkResponse 200 "ok"
              (inr (Some [ ["date"; "value"; "value"];
                           ["2025-05-01"; "120"; "95"] ]%string)))
           ["date"; "value"; "value"]%string
           [ ["2025-05-01"; "120"; "95"] ]%string).
  - reflexivity.
  - reflexivity.
Defined.

(** ** Failures of [get_sales_data] *)

(** X15. A reply of the API with a status other than 200 (403, 404, 429)
    reaches the caller of [get_sales_data] as an [HTTPException] of status
    500: the [except Exception] of the method catches the [HTTPException]
    that carries the status of the API and wraps it. *)
Theorem upstream_status_becomes_500
    (to_datetime : list string -> string + list (option date))
    (str_of : Sheets.Raised -> string)
    (response : Sheets.Response) (start end_ : date)
    (rep : option Z) (cat : option string) :
  Sheets.status_code response <> 200 ->
  Sheets.get_sales_data to_datetime str_of (inr response) start end_ rep cat
  = inl (HTTPException 500
           ("Error fetching data from Google Sheets: "
            ++ str_of (Sheets.UpstreamHTTP (Sheets.status_code response)
                         ("Google Sheets API error: "
                          ++ Sheets.text response)))).
Proof.
  intros Hstatus. apply Z.eqb_neq in Hstatus.
  unfold Sheets.get_sales_data, Sheets.fetch_and_filter,
    Sheets._fetch_sheet_data.
  rewrite Hstatus. reflexivity.
Qed.

Lemma upstream_status_becomes_500_witness :
  Sheets.get_sales_data SheetExamples.to_datetime SheetExamples.str_of
    (inr SheetExamples.forbidden) 739372 739374 None None
  = inl (HTTPException 500
           "Error fetching data from Google Sheets: 403: Google Sheets API error: The caller does not have permission").
Proof.
  apply (upstream_status_becomes_500 SheetExamples.to_datetime
           SheetExamples.str_of SheetExamples.forbidden
           739372 739374 None None).
  discriminate.
Defined.

Lemma dict_set_keys_present (k v : string) (d : Sheets.Dict) :
  In k (map fst d) -> map fst (Sheets.dict_set k v d) = map fst d.
Proof.
  induction d as [|[k' w] d IH]; intros Hin; [destruct Hin|].
  cbn [Sheets.dict_set]. destruct (String.eqb_spec k k') as [->|Hneq];
    [reflexivity|].
  cbn [map fst]. f_equal. apply IH.
  destruct Hin as [Heq|Hin]; [cbn in Heq; congruence|exact Hin].
Qed.

Lemma fold_dict_set_keys_from (pairs : list (string * string)) :
  forall acc key,
    In key (map fst
              (fold_left (fun d kv => Sheets.dict_set (fst kv) (snd kv) d)
                         pairs acc)) ->
    In key (map fst acc) \/ In key (map fst pairs).
Proof.
  induction pairs as [|[k v] pairs IH]; intros acc key Hin; [now left|].
  cbn [fold_left fst snd] in Hin. apply IH in Hin.
  destruct Hin as [Hin|Hin]; [|right; now right].
  destruct (in_dec string_dec k (map fst acc)) as [Hold|Hfresh].
  - left. now rewrite dict_set_keys_present in Hin.
  - rewrite dict_set_fresh, map_app in Hin by exact Hfresh.
    apply in_app_or in Hin. destruct Hin as [Hin|[<-|[]]];
      [now left|right; now left].
Qed.

Lemma in_combine_keys (keys vals : list string) (key : string) :
  In key (map fst (combine keys vals)) -> In key keys.
Proof.
  intros Hin. apply in_map_iff in Hin. destruct Hin as [[k v] [<- Hin]].
  now apply in_combine_l in Hin.
Qed.

(** X16. A sheet without a row under its header row (or without any value),
    and a sheet whose header row has no ['date'], are failures of
    [get_sales_data], not empty results: the frame built has no column
    ['date'], the [KeyError] is caught, and an [HTTPException] of status 500
    is raised. *)
Theorem sheet_without_dates_is_a_failure
    (to_datetime : list string -> string + list (option date))
    (str_of : Sheets.Raised -> string)
    (response : Sheets.Response) (values : option (list (list string)))
    (start end_ : date) (rep : option Z) (cat : option string) :
  Sheets.status_code response = 200 ->
  Sheets.json response = inr values ->
  match values with
  | None => True
  | Some [] => True
  | Some (headers :: data_rows) =>
      data_rows = [] \/ ~ In "date"%string headers
  end ->
  Sheets.get_sales_data to_datetime str_of (inr response) start end_ rep cat
  = inl (HTTPException 500
           ("Error fetching data from Google Sheets: "
            ++ str_of (Sheets.KeyError "date"))).
Proof.
  intros Hstatus Hjson Hvalues.
  unfold Sheets.get_sales_data, Sheets.fetch_and_filter,
    Sheets._fetch_sheet_data.
  rewrite Hstatus, Hjson. cbn [Z.eqb Pos.eqb negb].
  destruct values as [[|headers data_rows]|]; [reflexivity| |reflexivity].
  destruct data_rows as [|row data_rows]; [reflexivity|].
  destruct Hvalues as [Hrows|Hdate]; [discriminate Hrows|].
  cbn [map]. unfold Sheets.column.
  assert (Hcols :
            existsb (String.eqb "date")
              (map fst
                 (Sheets.dict_of
                    (combine headers (Sheets.pad_row headers row))))
            = false).
  { destruct (existsb _ _) eqn:Hexists; [|reflexivity].
    exfalso. apply Hdate. apply existsb_exists in Hexists.
    destruct Hexists as [k [Hin Heq]]. apply String.eqb_eq in Heq. subst k.
    unfold Sheets.dict_of in Hin. apply fold_dict_set_keys_from in Hin.
    destruct Hin as [[]|Hin]. now apply in_combine_keys in Hin. }
  now rewrite Hcols.
Qed.

Lemma sheet_without_dates_is_a_failure_witness :
  Sheets._fetch_sheet_data (inr SheetExamples.header_only) = inr []
  /\ Sheets.get_sales_data SheetExamples.to_datetime SheetExamples.str_of
       (inr SheetExamples.header_only) 739372 739374 None None
     = inl (HTTPException 500
              "Error fetching data from Google Sheets: 'date'").
Proof.
  split; [reflexivity|].
  apply (sheet_without_dates_is_a_failure SheetExamples.to_datetime
           SheetExamples.str_of SheetExamples.header_only
           (Some [ ["date"; "value"; "sales_rep_id"; "category"] ]%string)
           739372 739374 None None).
  - reflexivity.
  - reflexivity.
  - now left.
Defined.

(** ** The rows [get_sales_data] returns *)

Lemma in_filter_combine {A B : Type} (g : B -> A) (f : A * B -> bool)
    (l : list B) (r : B) :
  In r (map snd (filter f (combine (map g l) l))) ->
  In r l /\ f (g r, r) = true.
Proof.
  induction l as [|x l IH]; intros Hin; [destruct Hin|].
  cbn [map combine filter] in Hin.
  destruct (f (g x, x)) eqn:Hf.
  - destruct Hin as [<-|Hin]; [split; [now left|exact Hf]|].
    destruct (IH Hin) as [Hl Hr]. split; [now right|exact Hr].
  - destruct (IH Hin) as [Hl Hr]. split; [now right|exact Hr].
Qed.

(** X17. The rows of a frame [get_sales_data] returns all carry a date of
    the window asked for, both ends included (a row whose date is NaT is
    left out); with a category asked for, the cell ['category'] of every
    row is that category. *)
Theorem sales_data_lie_in_the_window
    (to_datetime : list string -> string + list (option date))
    (str_of : Sheets.Raised -> string)
    (reply : Sheets.Raised + Sheets.Response) (start end_ : date)
    (rep : option Z) (cat : option string) (df : Sheets.Frame) :
  Sheets.get_sales_data to_datetime str_of reply start end_ rep cat = inr df ->
  Forall (fun r => exists d, fst r = Some d /\ start <= d <= end_)
         (Sheets.rows df)
  /\ forall c, cat = Some c ->
       Forall (fun r => Sheets.cell "category" r = c) (Sheets.rows df).
Proof.
  unfold Sheets.get_sales_data, Sheets.fetch_and_filter.
  destruct (Sheets._fetch_sheet_data reply) as [e|raw_data]; [discriminate|].
  cbv zeta.
  set (cols := match raw_data with [] => [] | record :: _ => map fst record end).
  destruct (Sheets.column "date" cols _) as [e|date_cells]; [discriminate|].
  destruct (to_datetime date_cells) as [message|timestamps]; [discriminate|].
  set (mask := fun r : option Z * Sheets.Dict =>
                 match fst r with
                 | Some d => (start <=? d) && (d <=? end_)
                 | None => false
                 end).
  set (masked := filter mask _).
  assert (Hmask : forall r, In r masked ->
                            exists d, fst r = Some d /\ start <= d <= end_).
  { intros r Hin. apply filter_In in Hin. destruct Hin as [_ Hr].
    unfold mask in Hr. destruct (fst r) as [d|]; [|discriminate].
    exists d. split; [reflexivity|]. apply andb_true_iff in Hr. lia. }
  assert (Hrep : forall records,
             match rep with
             | None => inr masked
             | Some n =>
                 match Sheets.column "sales_rep_id" cols masked with
                 | inl e => inl e
                 | inr cells =>
                     inr (map snd
                            (filter (fun cr => Sheets.str_eq_int (fst cr) n)
                                    (combine cells masked)))
                 end
             end = inr records ->
             forall r, In r records -> In r masked).
  { intros records Heq r Hin. destruct rep as [n|].
    - unfold Sheets.column in Heq.
      destruct (existsb _ cols); [|discriminate]. injection Heq as <-.
      now apply in_filter_combine in Hin.
    - injection Heq as <-. exact Hin. }
  destruct (match rep with None => _ | Some _ => _ end)
    as [e|records]; [discriminate|].
  specialize (Hrep records eq_refl).
  destruct cat as [c|].
  - unfold Sheets.column. destruct (existsb _ cols); [|discriminate].
    intros Heq. injection Heq as <-. cbn [Sheets.rows]. split.
    + apply Forall_forall. intros r Hin. apply in_filter_combine in Hin.
      apply Hmask, Hrep, Hin.
    + intros c' Hc. injection Hc as <-. apply Forall_forall. intros r Hin.
      apply in_filter_combine in Hin. destruct Hin as [_ Heq].
      now apply String.eqb_eq in Heq.
  - intros Heq. injection Heq as <-. cbn [Sheets.rows]. split.
    + apply Forall_forall. intros r Hin. apply Hmask, Hrep, Hin.
    + intros c Hc. discriminate Hc.
Qed.

Lemma sales_data_lie_in_the_window_witness :
  exists df,
    Sheets.get_sales_data SheetExamples.to_datetime SheetExamples.str_of
      (inr SheetExamples.sheet) 739373 739374 None (Some "smb"%string)
    = inr df
    /\ length (Sheets.rows df) = 1%nat
    /\ Forall (fun r => exists d, fst r = Some d /\ 739373 <= d <= 739374)
              (Sheets.rows df)
    /\ forall c, Some "smb"%string = Some c ->
         Forall (fun r => Sheets.cell "category" r = c) (Sheets.rows df).
Proof.
  eexists. split; [reflexivity|]. split; [reflexivity|].
  apply (sales_data_lie_in_the_window SheetExamples.to_datetime
           SheetExamples.str_of (inr SheetExamples.sheet) 739373 739374
           None (Some "smb"%string)).
  reflexivity.
Defined.

(** X18. With a [sales_rep_id] asked for, [get_sales_data] never returns a
    row: the cells of the sheet are strings, the identifier is an integer,
    and the comparison of the column with it is false on every row. *)
Theorem sales_rep_filter_keeps_no_row
    (to_datetime : list string -> string + list (option date))
    (str_of : Sheets.Raised -> string)
    (reply : Sheets.Raised + Sheets.Response) (start end_ : date)
    (n : Z) (cat : option string) (df : Sheets.Frame) :
  Sheets.get_sales_data to_datetime str_of reply start end_ (Some n) cat
  = inr df ->
  Sheets.rows df = [].
Proof.
  unfold Sheets.get_sales_data, Sheets.fetch_and_filter.
  destruct (Sheets._fetch_sheet_data reply) as [e|raw_data]; [discriminate|].
  cbv zeta.
  set (cols := match raw_data with [] => [] | record :: _ => map fst record end).
  destruct (Sheets.column "date" cols _) as [e|date_cells]; [discriminate|].
  destruct (to_datetime date_cells) as [message|timestamps]; [discriminate|].
  set (masked := filter _ _).
  destruct (Sheets.column "sales_rep_id" cols masked) as [e|cells];
    [discriminate|].
  set (kept := map snd (filter _ (combine cells masked))).
  assert (Hnone : kept = []).
  { unfold kept.
    induction (combine cells masked) as [|cr l IH]; [reflexivity|exact IH]. }
  rewrite Hnone. destruct cat as [c|].
  - unfold Sheets.column. destruct (existsb _ cols); [|discriminate].
    intros Heq. injection Heq as <-. reflexivity.
  - intros Heq. injection Heq as <-. reflexivity.
Qed.

Lemma sales_rep_filter_keeps_no_row_witness :
  exists df,
    Sheets.get_sales_data SheetExamples.to_datetime SheetExamples.str_of
      (inr SheetExamples.sheet) 739372 739374 (Some 1) None
    = inr df
    /\ Sheets.rows df = [].
Proof.
  eexists. split; [reflexivity|].
  apply (sales_rep_filter_keeps_no_row SheetExamples.to_datetime
           SheetExamples.str_of (inr SheetExamples.sheet) 739372 739374
           1 None).
  reflexivity.
Defined.
